(** * Study Content Converter: the content-processing pipeline of [app.py]

    A shallow embedding of [StudyContentProcessor], [process_content] and
    [display_results], and the properties of the pipeline: input check,
    per-stage truncation, fallbacks, statistics and the bounded history. *)

From Stdlib Require Import String Ascii QArith Lia SpecFloat.
From stdpp Require Import base option list gmap.

Local Open Scope nat_scope.

(** ** Python values *)

(** A Python [str] is a sequence of Unicode code points; [len] counts them
    and [s[:n]] is [take n s]. *)
Definition char := N.
Abbreviation text := (list char).

(** A Python [bytes] value. *)
Abbreviation bytes := (list Byte.byte).

(** A string literal of the source, as a [str]. *)
Fixpoint lit (s : string) : text :=
  match s with
  | EmptyString => []
  | String a s' => N_of_ascii a :: lit s'
  end.
Arguments lit s%_string.

(** Truth value of a [str] or [bytes] object: empty is false. *)
Definition truthy {A : Type} (s : list A) : bool :=
  match s with
  | [] => false
  | _ :: _ => true
  end.

(** Truth value of an object that is [None] or a [str]/[bytes]. *)
Definition truthy_opt {A : Type} (o : option (list A)) : bool :=
  match o with
  | None => false
  | Some s => truthy s
  end.

(** [str.isspace] on one code point (the whitespace set of CPython). *)
Definition isspace (c : char) : bool :=
  ((9 <=? c) && (c <=? 13) || (28 <=? c) && (c <=? 32)
   || (c =? 133) || (c =? 160) || (c =? 5760)
   || (8192 <=? c) && (c <=? 8202)
   || (c =? 8232) || (c =? 8233) || (c =? 8239) || (c =? 8287)
   || (c =? 12288))%N.

Fixpoint lstrip (s : text) : text :=
  match s with
  | [] => []
  | c :: s' => if isspace c then lstrip s' else s
  end.

Definition rstrip (s : text) : text := reverse (lstrip (reverse s)).

(** [s.strip()] with no argument. *)
Definition strip (s : text) : text := rstrip (lstrip s).

(** The text is empty or consists of whitespace only. *)
Definition blank (s : text) : bool := forallb isspace s.

(** ** Exceptions and the state of a run *)

Inductive exn : Type :=
| UnicodeDecodeError
| ZeroDivisionError.

Inductive result (A : Type) : Type :=
| Ok (a : A)
| Raise (e : exn).
Arguments Ok {A} a.
Arguments Raise {A} e.

(** The dictionary built at lines 445-451; the key ["summary"] is the field
    [entry_summary]. *)
Record document_entry : Type := {
  timestamp : Z;
  original_length : nat;
  entry_summary : text;
  has_audio : bool;
  has_visual : bool
}.

(** A call that leaves the process: the user prompt sent to the chat model
    (model, system message, [max_tokens=800] and [temperature=0.7] are
    constants) and the text sent to the speech client (voice and MP3 encoding
    are constants). *)
Inductive request : Type :=
| ChatCompletion (prompt : text)
| SynthesizeSpeech (tts_text : text).

(** [processed_documents] is the key of [st.session_state]: [None] while the
    key is missing. [requests] lists the external calls, oldest first. *)
Record world : Type := {
  processed_documents : option (list document_entry);
  requests : list request
}.

(** State and exceptions; the state reached when an exception is raised is
    kept, as in Python. *)
Definition M (A : Type) : Type := world -> result A * world.

Definition ret {A : Type} (a : A) : M A := fun w => (Ok a, w).

Definition raise {A : Type} (e : exn) : M A := fun w => (Raise e, w).

Definition bind {A B : Type} (c : M A) (k : A -> M B) : M B :=
  fun w =>
    match c w with
    | (Ok a, w') => k a w'
    | (Raise e, w') => (Raise e, w')
    end.

Notation "'do' x <~ c ;; k" := (bind c (fun x => k))
  (at level 10, x name, c at level 99, k at level 200).

Definition lift {A : Type} (r : result A) : M A := fun w => (r, w).

Definition send (r : request) : M unit :=
  fun w => (Ok tt, {| processed_documents := processed_documents w;
                      requests := requests w ++ [r] |}).

(** ** The processor and its capabilities *)

(** What [setup_apis] leaves behind and what the services answer.
    [api_key] is the truth value of [openai.api_key]; [chat_completion p] is
    [response.choices[0].message.content] for the user prompt [p], [None]
    when the call raises or has no content; [tts_client] is [None] when the
    speech client is not configured, and [client t] is
    [response.audio_content], [None] when the call raises. *)
Record Processor : Type := {
  api_key : bool;
  chat_completion : text -> option text;
  tts_client : option (text -> option bytes)
}.

(** [uploaded_file]: its declared MIME type, what [PyPDF2.PdfReader] makes of
    it ([None] when the reader raises, else for each page the value of
    [page.extract_text()], [None] when that call raises), and
    [read().decode('utf-8')] ([None] when decoding raises). *)
Record UploadedFile : Type := {
  type : text;
  pdf_pages : option (list (option text));
  decoded : option text
}.

(** ** [StudyContentProcessor] *)

(** The string ["\n"]. *)
Definition newline : text := lit "
".

(** The loop of lines 128-130; [None] stands for an exception, caught at
    line 132. *)
Fixpoint extract_pages (pages : list (option text)) (acc : text) : option text :=
  match pages with
  | [] => Some acc
  | None :: _ => None
  | Some page_text :: rest => extract_pages rest (acc ++ (page_text ++ newline))
  end.

Definition extract_text_from_pdf (uploaded_file : UploadedFile) : option text :=
  match pdf_pages uploaded_file with
  | None => None
  | Some pages => extract_pages pages []
  end.

(** The f-string of lines 146-158. *)
Definition gpt_prompt (complexity_level text_chunk : text) : text :=
  lit "
            Please simplify the following academic/research content for "
  ++ complexity_level ++ lit " level understanding:
            
            Requirements:
            1. Break down complex concepts into simple explanations
            2. Use analogies and examples where helpful
            3. Create bullet points for key concepts
            4. Maintain accuracy while improving clarity
            5. Maximum 500 words for summary
            
            Content to simplify:
            "
  ++ text_chunk ++ lit "
            ".

Definition simplify_content_with_gpt (P : Processor) (txt complexity_level : text)
  : M (option text) :=
  if negb (api_key P) then ret None
  else
    let text_chunk := if 4000 <? length txt then take 4000 txt else txt in
    let prompt := gpt_prompt complexity_level text_chunk in
    do _u <~ send (ChatCompletion prompt) ;;
    ret (chat_completion P prompt).

Definition generate_voice_note (P : Processor) (txt : text) : M (option bytes) :=
  match tts_client P with
  | Some client =>
      let tts_text := if 1000 <? length txt then take 1000 txt else txt in
      do _u <~ send (SynthesizeSpeech tts_text) ;;
      ret (client tts_text)
  | None => ret None
  end.

(** The f-string of lines 209-220. *)
Definition visual_prompt (excerpt : text) : text :=
  lit "
            Create a simple infographic or diagram to explain:
            
            "
  ++ excerpt ++ lit "
            
            Visual elements should include:
            - Key concepts as boxes or circles
            - Connecting arrows showing relationships
            - Simple icons or symbols
            - Clear, readable text
            - Bright, engaging colors
            ".

Definition create_visual_explanation (summary_text : text) : option text :=
  Some (visual_prompt (take 300 summary_text)).

(** ** [process_content] and [display_results] *)

(** The dictionary [results]: a key that is absent is [None]. *)
Record Results : Type := {
  summary : option text;
  audio : option bytes;
  visual : option text
}.

Definition no_results : Results :=
  {| summary := None; audio := None; visual := None |}.

(** A binary64 number, as IEEE 754 and the Standard Library specify it:
    53 bits of precision, exponents up to 1024, rounding to nearest even. *)
Abbreviation binary64 := spec_float.

Definition float_div : binary64 -> binary64 -> binary64 := SFdiv 53 1024.

Definition float_mul : binary64 -> binary64 -> binary64 := SFmul 53 1024.

(** A length, or the literal [100], as a number with mantissa and exponent
    0: the integer itself, not yet rounded. *)
Definition float_of_nat (n : nat) : binary64 :=
  match n with
  | O => S754_zero false
  | S n' => S754_finite false (Pos.of_succ_nat n') 0
  end.

(** The value of line 435: the [int] 0 or a [float]. *)
Inductive number : Type :=
| Int (z : Z)
| Float (f : binary64).

(** [x == 0]. *)
Definition is_zero (x : number) : bool :=
  match x with
  | Int z => (z =? 0)%Z
  | Float f => SFeqb f (S754_zero false)
  end.

(** The rational that a number stands for; infinities and NaN stand for
    none. *)
Definition float_value (f : binary64) : option Q :=
  match f with
  | S754_zero _ => Some 0%Q
  | S754_finite s m (Zneg p) =>
      Some ((if s then Zneg m else Zpos m) # 2 ^ p)%Q
  | S754_finite s m e =>
      Some (inject_Z ((if s then Zneg m else Zpos m) * 2 ^ e))
  | S754_infinity _ | S754_nan => None
  end.

Definition number_value (x : number) : option Q :=
  match x with
  | Int z => Some (inject_Z z)
  | Float f => float_value f
  end.

(** The figures of the statistics row (lines 425-436). *)
Record Statistics : Type := {
  shown_original_length : nat;
  shown_summary_length : option nat;
  compression_ratio : number
}.

(** How a call of [process_content] ends when no exception escapes: with the
    message of line 334 and the [return] of line 335, or with
    [display_results]. *)
Inductive outcome : Type :=
| InputError
| Displayed (results : Results) (stats : Statistics).

(** [format in output_formats]. *)
Definition requested (format : text) (output_formats : list text) : bool :=
  bool_decide (format ∈ output_formats).

(** Lines 322-331: the value of [text_content] at the check of line 333, or
    the exception that [decode] raises. *)
Definition extract_text (uploaded_file : option UploadedFile) (manual_text : text)
  : result (option text) :=
  match uploaded_file with
  | Some f =>
      if bool_decide (type f = lit "application/pdf") then
        Ok (extract_text_from_pdf f)
      else if bool_decide (type f = lit "text/plain") then
        match decoded f with
        | Some t => Ok (Some t)
        | None => Raise UnicodeDecodeError
        end
      else Ok (Some [])
  | None =>
      if truthy (strip manual_text) then Ok (Some manual_text) else Ok (Some [])
  end.

(** [a / b] on two lengths: [ZeroDivisionError] on a zero divisor, else the
    quotient of the two integers rounded once, to the nearest binary64.
    A Python string has fewer than 2^63 characters; for such lengths the
    quotient is finite. *)
Definition true_div (a b : nat) : M binary64 :=
  if b =? 0 then raise ZeroDivisionError
  else ret (float_div (float_of_nat a) (float_of_nat b)).

(** Lines 442-456: create the list when the key is missing, insert at index
    0, keep the first ten. *)
Definition save_document (entry : document_entry) : M unit :=
  fun w =>
    (Ok tt, {| processed_documents :=
                 Some (take 10 (entry :: default [] (processed_documents w)));
               requests := requests w |}).

Definition display_results (results : Results) (original_text : text) (now : Z)
  : M outcome :=
  do ratio <~
    match summary results with
    | Some _ =>
        do q <~ true_div (length (default [] (summary results)))
                         (length original_text) ;;
        ret (Float (float_mul q (float_of_nat 100)))
    | None => ret (Int 0)
    end ;;
  let entry :=
    {| timestamp := now;
       original_length := length original_text;
       entry_summary := default [] (summary results);
       has_audio := bool_decide (is_Some (audio results));
       has_visual := bool_decide (is_Some (visual results)) |} in
  do _u <~ save_document entry ;;
  ret (Displayed results
         {| shown_original_length := length original_text;
            shown_summary_length := length <$> summary results;
            compression_ratio := ratio |}).

(** The three stages of lines 346-366, each on the [results] built so far. *)
Definition summary_stage (P : Processor) (text_content complexity_level : text)
    (output_formats : list text) (results : Results) : M Results :=
  if requested (lit "Summary") output_formats then
    do s <~ simplify_content_with_gpt P text_content complexity_level ;;
    if truthy_opt s then
      ret {| summary := s; audio := audio results; visual := visual results |}
    else ret results
  else ret results.

Definition voice_stage (P : Processor) (text_content : text)
    (output_formats : list text) (results : Results) : M Results :=
  if requested (lit "Voice Note") output_formats then
    let text_for_voice := default (take 1000 text_content) (summary results) in
    do audio_content <~ generate_voice_note P text_for_voice ;;
    if truthy_opt audio_content then
      ret {| summary := summary results; audio := audio_content;
             visual := visual results |}
    else ret results
  else ret results.

Definition visual_stage (text_content : text) (output_formats : list text)
    (results : Results) : M Results :=
  if requested (lit "Visual Explanation") output_formats then
    let v := create_visual_explanation
               (default (take 500 text_content) (summary results)) in
    if truthy_opt v then
      ret {| summary := summary results; audio := audio results; visual := v |}
    else ret results
  else ret results.

Definition process_content (P : Processor) (uploaded_file : option UploadedFile)
    (manual_text complexity_level : text) (output_formats : list text)
    (now : Z) : M outcome :=
  do extracted <~ lift (extract_text uploaded_file manual_text) ;;
  match extracted with
  | None | Some [] => ret InputError
  | Some text_content =>
      do results <~ summary_stage P text_content complexity_level
                      output_formats no_results ;;
      do results <~ voice_stage P text_content output_formats results ;;
      do results <~ visual_stage text_content output_formats results ;;
      display_results results text_content now
  end.

(** The session at its start: no history key, no call made yet. *)
Definition fresh : world := {| processed_documents := None; requests := [] |}.

Definition all_formats : list text :=
  [lit "Summary"; lit "Voice Note"; lit "Visual Explanation"].

Definition txt_file (content : text) : UploadedFile :=
  {| type := lit "text/plain"; pdf_pages := None; decoded := Some content |}.

Definition offline : Processor :=
  {| api_key := false; chat_completion := fun _ => None; tts_client := None |}.

(** ** What a run leaves behind

    The artifacts, requests and history of a run that passes the check of
    line 333, as functions of the extracted text. They are compared with
    [process_content] in [process_content_run]. *)

(** An artifact is stored only when the value returned is true. *)
Definition kept {A : Type} (o : option (list A)) : option (list A) :=
  if truthy_opt o then o else None.

Definition log (rs : list request) (w : world) : world :=
  {| processed_documents := processed_documents w;
     requests := requests w ++ rs |}.

Section Run.
Variable P : Processor.
Variables text_content complexity_level : text.
Variable output_formats : list text.
Variable now : Z.

Definition run_prompt : text :=
  gpt_prompt complexity_level (take 4000 text_content).

Definition calls_summarizer : bool :=
  requested (lit "Summary") output_formats && api_key P.

Definition run_summary : option text :=
  if calls_summarizer then kept (chat_completion P run_prompt) else None.

Definition voice_source : text :=
  default (take 1000 text_content) run_summary.

Definition run_audio : option bytes :=
  if requested (lit "Voice Note") output_formats then
    match tts_client P with
    | Some client => kept (client (take 1000 voice_source))
    | None => None
    end
  else None.

Definition run_visual : option text :=
  if requested (lit "Visual Explanation") output_formats then
    Some (visual_prompt (take 300 (default text_content run_summary)))
  else None.

Definition run_results : Results :=
  {| summary := run_summary; audio := run_audio; visual := run_visual |}.

Definition run_requests : list request :=
  (if calls_summarizer then [ChatCompletion run_prompt] else [])
  ++ (if requested (lit "Voice Note") output_formats then
        match tts_client P with
        | Some _ => [SynthesizeSpeech (take 1000 voice_source)]
        | None => []
        end
      else []).

Definition run_ratio : number :=
  match run_summary with
  | Some s =>
      Float (float_mul (float_div (float_of_nat (length s))
                                  (float_of_nat (length text_content)))
                       (float_of_nat 100))
  | None => Int 0
  end.

Definition run_stats : Statistics :=
  {| shown_original_length := length text_content;
     shown_summary_length := length <$> run_summary;
     compression_ratio := run_ratio |}.

Definition run_entry : document_entry :=
  {| timestamp := now;
     original_length := length text_content;
     entry_summary := default [] run_summary;
     has_audio := bool_decide (is_Some run_audio);
     has_visual := bool_decide (is_Some run_visual) |}.

Definition run_world (w : world) : world :=
  {| processed_documents :=
       Some (take 10 (run_entry :: default [] (processed_documents w)));
     requests := requests w ++ run_requests |}.
End Run.

(** ** Observations and sample inputs *)

(** The history as [show_history] reads it: nothing while the key is
    missing. *)
Definition history (w : world) : list document_entry :=
  default [] (processed_documents w).

(** The prompts sent to the chat model and the texts sent to the speech
    client, among a list of requests. *)
Definition chat_prompts (rs : list request) : list text :=
  omap (fun r => match r with ChatCompletion p => Some p | _ => None end) rs.

Definition speech_texts (rs : list request) : list text :=
  omap (fun r => match r with SynthesizeSpeech t => Some t | _ => None end) rs.

(** The specification's reading of the PDF extractor: the page texts with a
    newline between consecutive pages. *)
Fixpoint spec_join_pages (pages : list text) : text :=
  match pages with
  | [] => []
  | [page] => page
  | page :: rest => page ++ newline ++ spec_join_pages rest
  end.

Definition pdf_file (pages : list text) : UploadedFile :=
  {| type := lit "application/pdf"; pdf_pages := Some (Some <$> pages);
     decoded := None |}.

Definition png_file : UploadedFile :=
  {| type := lit "image/png"; pdf_pages := None; decoded := None |}.

Definition demo_summary : text := lit "Short summary.".

Definition demo_audio : bytes := [Byte.x49; Byte.x44; Byte.x33].

(** Both services configured and answering. *)
Definition configured : Processor :=
  {| api_key := true;
     chat_completion := fun _ => Some demo_summary;
     tts_client := Some (fun _ => Some demo_audio) |}.

(** The chat model answers with the empty string. *)
Definition mute_model : Processor :=
  {| api_key := true;
     chat_completion := fun _ => Some [];
     tts_client := Some (fun _ => Some demo_audio) |}.

(** No API key; the speech client is configured. *)
Definition no_summarizer : Processor :=
  {| api_key := false;
     chat_completion := fun _ => None;
     tts_client := Some (fun _ => Some demo_audio) |}.

Definition hello : text := lit "Hello world".

(** A text of 4001 characters. *)
Definition long_text : text := replicate 4001 97%N.

Definition sample_entry (n : nat) : document_entry :=
  {| timestamp := Z.of_nat n; original_length := n; entry_summary := [];
     has_audio := false; has_visual := false |}.

(** A session that has recorded ten runs, the newest first. *)
Definition full_session : world :=
  {| processed_documents := Some (sample_entry <$> reverse (seq 1 10));
     requests := [] |}.

(** ** [show_history], [setup_apis] and sequences of runs *)

(** One expander of the history page (lines 466-480): the number in its
    label, the three metrics, and the summary area with the index of its
    widget key, when the entry has a summary. The label and the key are kept
    as their parts, not as formatted strings. *)
Record history_item : Type := {
  item_number : nat;
  item_timestamp : Z;
  item_original_length : nat;
  item_has_audio : bool;
  item_has_visual : bool;
  item_summary_area : option (nat * text)
}.

Inductive history_page : Type :=
| NoDocuments
| Documents (items : list history_item).

Definition show_item (i : nat) (doc : document_entry) : history_item :=
  {| item_number := i + 1;
     item_timestamp := timestamp doc;
     item_original_length := original_length doc;
     item_has_audio := has_audio doc;
     item_has_visual := has_visual doc;
     item_summary_area :=
       if truthy (entry_summary doc) then Some (i, entry_summary doc)
       else None |}.

Definition show_history (w : world) : history_page :=
  match processed_documents w with
  | None | Some [] => NoDocuments
  | Some docs => Documents (imap show_item docs)
  end.

(** Lines 441-456 run once for each document of a list, the first document
    first. *)
Definition save_documents (entries : list document_entry) (w : world) : world :=
  foldl (fun w' entry => snd (save_document entry w')) w entries.

(** A plain-text upload whose bytes are not UTF-8. *)
Definition undecodable_file : UploadedFile :=
  {| type := lit "text/plain"; pdf_pages := None; decoded := None |}.

(** A PDF whose second page cannot be extracted. *)
Definition broken_pdf : UploadedFile :=
  {| type := lit "application/pdf";
     pdf_pages := Some [Some (lit "a"); None; Some (lit "b")];
     decoded := None |}.

Module Setup.
Section Clients.
(** The client objects and what builds them; [None] when the call raises.
    The constructors read the process environment as well as their
    arguments. [write_credentials] stands for lines 115-116: the name of
    the temporary file that now holds the credentials, [None] when creating
    or writing it raises. *)
Variables Mongo S3 Tts : Type.
Variable MongoClient : gmap text text -> text -> option Mongo.
Variable boto3_client : gmap text text -> text -> text -> option S3.
Variable write_credentials : text -> option text.
Variable TextToSpeechClient : gmap text text -> option Tts.

(** What [setup_apis] leaves behind: [openai.api_key], the attributes of
    the processor, and the process environment; [None] is Python's
    [None]. *)
Record clients : Type := {
  openai_api_key : option text;
  mongo_client : option Mongo;
  s3_client : option S3;
  bucket_name : option text;
  tts_client : option Tts;
  environ : gmap text text
}.

(** How [setup_apis] ends: line 78 reads [st.secrets] outside every [try]
    and raises when there is no secrets file. *)
Inductive setup_result : Type :=
| SecretsNotFound
| Ready (c : clients).

(** Lines 75-122. [secrets] is [st.secrets], [None] when there is no secrets
    file; [env] is the process environment and [prior_key] the value of
    [openai.api_key] before the call. *)
Definition setup_apis (secrets : option (gmap text text)) (env : gmap text text)
    (prior_key : option text) : setup_result :=
  match secrets with
  | None => SecretsNotFound
  | Some secrets =>
      let key :=
        match secrets !! lit "openai_api_key" with
        | Some k => Some k
        | None =>
            if truthy_opt (env !! lit "OPENAI_API_KEY")
            then env !! lit "OPENAI_API_KEY"
            else prior_key
        end in
      let mongo :=
        match secrets !! lit "mongodb_uri" with
        | Some uri => MongoClient env uri
        | None =>
            match env !! lit "MONGODB_URI" with
            | Some uri => if truthy uri then MongoClient env uri else None
            | None => None
            end
        end in
      let s3 :=
        match secrets !! lit "aws_access_key", secrets !! lit "aws_secret_key",
              secrets !! lit "aws_bucket_name" with
        | Some access, Some secret, Some bucket =>
            match boto3_client env access secret with
            | Some client => (Some client, Some bucket)
            | None => (None, None)
            end
        | _, _, _ => (None, None)
        end in
      let tts :=
        match secrets !! lit "google_credentials" with
        | Some credentials_info =>
            match write_credentials credentials_info with
            | Some name =>
                let env' :=
                  <[lit "GOOGLE_APPLICATION_CREDENTIALS" := name]> env in
                (TextToSpeechClient env', env')
            | None => (None, env)
            end
        | None => (None, env)
        end in
      Ready {| openai_api_key := key; mongo_client := mongo;
               s3_client := s3.1; bucket_name := s3.2;
               tts_client := tts.1; environ := tts.2 |}
  end.

(** The marks of lines 264-269, [true] for the check mark, in the order
    OpenAI, Google Cloud TTS, AWS S3, MongoDB. *)
Definition api_status (c : clients) : list bool :=
  [truthy_opt (openai_api_key c);
   bool_decide (is_Some (tts_client c));
   bool_decide (is_Some (s3_client c));
   bool_decide (is_Some (mongo_client c))].
End Clients.
End Setup.

(** Sample settings: client constructors that always succeed, secrets with
    two of the three AWS entries, secrets with an empty OpenAI key, and an
    environment that holds a key. *)
Definition sample_setup (secrets : option (gmap text text))
    (env : gmap text text) (prior_key : option text)
  : Setup.setup_result unit unit unit :=
  Setup.setup_apis unit unit unit (fun _ _ => Some tt) (fun _ _ _ => Some tt)
    (fun _ => Some (lit "/tmp/credentials.json")) (fun _ => Some tt)
    secrets env prior_key.

Definition partial_aws_secrets : gmap text text :=
  {[ lit "aws_access_key" := lit "AK"; lit "aws_secret_key" := lit "SK" ]}.

Definition empty_key_secrets : gmap text text :=
  {[ lit "openai_api_key" := [] ]}.

Definition key_environment : gmap text text :=
  {[ lit "OPENAI_API_KEY" := lit "sk-1" ]}.

(** A chat model that answers with seven characters, and a text of 25. *)
Definition seven_model : Processor :=
  {| api_key := true;
     chat_completion := fun _ => Some (lit "summary");
     tts_client := None |}.

Definition text25 : text := lit "abcdefghijklmnopqrstuvwxy".

(** ** Basic facts *)

Lemma slice_take {A : Type} (n : nat) (s : list A) :
  (if n <? length s then take n s else s) = take n s.
Proof.
  destruct (Nat.ltb_spec n (length s)) as [Hlt | Hge]; [reflexivity |].
  symmetry. apply take_ge. exact Hge.
Qed.

Lemma log_nil (w : world) : log [] w = w.
Proof. destruct w as [docs rs]. unfold log. simpl. by rewrite app_nil_r. Qed.

Lemma kept_Some {A : Type} (o : option (list A)) (s : list A) :
  kept o = Some s -> o = Some s /\ s <> [].
Proof.
  unfold kept. destruct o as [[| a l] |]; simpl; intros H; try discriminate.
  inversion H; subst. split; [reflexivity | discriminate].
Qed.

Lemma kept_empty {A : Type} : kept (Some (@nil A)) = None.
Proof. reflexivity. Qed.

Lemma simplify_content_with_gpt_run P txt lvl w :
  simplify_content_with_gpt P txt lvl w
  = (Ok (if api_key P then chat_completion P (gpt_prompt lvl (take 4000 txt))
         else None),
     log (if api_key P then [ChatCompletion (gpt_prompt lvl (take 4000 txt))]
          else []) w).
Proof.
  unfold simplify_content_with_gpt. rewrite slice_take.
  destruct (api_key P); simpl.
  - reflexivity.
  - unfold ret. by rewrite log_nil.
Qed.

Lemma generate_voice_note_run P txt w :
  generate_voice_note P txt w
  = (Ok (match tts_client P with
         | Some client => client (take 1000 txt)
         | None => None
         end),
     log (match tts_client P with
          | Some _ => [SynthesizeSpeech (take 1000 txt)]
          | None => []
          end) w).
Proof.
  unfold generate_voice_note. rewrite slice_take.
  destruct (tts_client P) as [client |]; simpl.
  - reflexivity.
  - unfold ret. by rewrite log_nil.
Qed.

Lemma summary_stage_run P txt lvl fmts w :
  summary_stage P txt lvl fmts no_results w
  = (Ok {| summary := run_summary P txt lvl fmts; audio := None; visual := None |},
     log (if calls_summarizer P fmts
          then [ChatCompletion (run_prompt txt lvl)] else []) w).
Proof.
  unfold summary_stage, run_summary, calls_summarizer, run_prompt, kept.
  destruct (requested (lit "Summary") fmts); simpl.
  - unfold bind. rewrite simplify_content_with_gpt_run.
    destruct (api_key P); simpl.
    + destruct (truthy_opt (chat_completion P _)); reflexivity.
    + unfold ret. by rewrite log_nil.
  - unfold ret. by rewrite log_nil.
Qed.

Lemma voice_stage_run P txt fmts s w :
  voice_stage P txt fmts {| summary := s; audio := None; visual := None |} w
  = (Ok {| summary := s;
           audio := if requested (lit "Voice Note") fmts then
                      match tts_client P with
                      | Some client =>
                          kept (client (take 1000 (default (take 1000 txt) s)))
                      | None => None
                      end
                    else None;
           visual := None |},
     log (if requested (lit "Voice Note") fmts then
            match tts_client P with
            | Some _ => [SynthesizeSpeech (take 1000 (default (take 1000 txt) s))]
            | None => []
            end
          else []) w).
Proof.
  unfold voice_stage, kept.
  destruct (requested (lit "Voice Note") fmts); simpl.
  - unfold bind. rewrite generate_voice_note_run.
    destruct (tts_client P) as [client |]; simpl.
    + destruct (truthy_opt (client _)); reflexivity.
    + unfold ret. by rewrite log_nil.
  - unfold ret. by rewrite log_nil.
Qed.

Lemma take_300_source (txt : text) (s : option text) :
  take 300 (default (take 500 txt) s) = take 300 (default txt s).
Proof.
  destruct s as [x |]; simpl; [reflexivity |].
  rewrite take_take. f_equal.
Qed.

Lemma visual_prompt_truthy (excerpt : text) : truthy (visual_prompt excerpt) = true.
Proof. reflexivity. Qed.

Lemma visual_stage_run txt fmts s a w :
  visual_stage txt fmts {| summary := s; audio := a; visual := None |} w
  = (Ok {| summary := s; audio := a;
           visual := if requested (lit "Visual Explanation") fmts then
                       Some (visual_prompt (take 300 (default txt s)))
                     else None |}, w).
Proof.
  unfold visual_stage, create_visual_explanation.
  destruct (requested (lit "Visual Explanation") fmts); simpl; [| reflexivity].
  by rewrite take_300_source.
Qed.

Lemma true_div_run (a b : nat) (w : world) :
  b <> 0 ->
  true_div a b w = (Ok (float_div (float_of_nat a) (float_of_nat b)), w).
Proof.
  intros Hb. unfold true_div.
  destruct (Nat.eqb_spec b 0) as [-> | _]; [contradiction | reflexivity].
Qed.

Lemma display_results_run P txt lvl fmts now w :
  txt <> [] ->
  display_results (run_results P txt lvl fmts) txt now w
  = (Ok (Displayed (run_results P txt lvl fmts) (run_stats P txt lvl fmts)),
     {| processed_documents :=
          Some (take 10 (run_entry P txt lvl fmts now
                         :: default [] (processed_documents w)));
        requests := requests w |}).
Proof.
  intros Hne.
  assert (Hlen : length txt <> 0) by (destruct txt; [contradiction | discriminate]).
  unfold display_results, run_stats, run_entry, run_ratio, bind. simpl.
  destruct (run_summary P txt lvl fmts) as [s |]; simpl.
  - rewrite true_div_run by exact Hlen. reflexivity.
  - reflexivity.
Qed.

(** A run that passes the check of line 333. *)
Lemma process_content_run P uploaded_file manual_text lvl fmts now w txt :
  extract_text uploaded_file manual_text = Ok (Some txt) ->
  txt <> [] ->
  process_content P uploaded_file manual_text lvl fmts now w
  = (Ok (Displayed (run_results P txt lvl fmts) (run_stats P txt lvl fmts)),
     run_world P txt lvl fmts now w).
Proof.
  intros Hex Hne. unfold process_content, bind, lift. rewrite Hex.
  destruct txt as [| c rest]; [contradiction |].
  rewrite summary_stage_run, voice_stage_run, visual_stage_run.
  change {| summary := run_summary P (c :: rest) lvl fmts;
            audio := _; visual := _ |}
    with (run_results P (c :: rest) lvl fmts).
  rewrite display_results_run by discriminate.
  unfold run_world, run_requests, log. simpl.
  by rewrite app_assoc.
Qed.

(** A run that stops at the check of line 333. *)
Lemma process_content_stop P uploaded_file manual_text lvl fmts now w :
  extract_text uploaded_file manual_text = Ok None
  \/ extract_text uploaded_file manual_text = Ok (Some []) ->
  process_content P uploaded_file manual_text lvl fmts now w = (Ok InputError, w).
Proof.
  intros [Hex | Hex]; unfold process_content, bind, lift; by rewrite Hex.
Qed.

(** A run in which [decode] raises. *)
Lemma process_content_raise P uploaded_file manual_text lvl fmts now w e :
  extract_text uploaded_file manual_text = Raise e ->
  process_content P uploaded_file manual_text lvl fmts now w = (Raise e, w).
Proof.
  intros Hex. unfold process_content, bind, lift. by rewrite Hex.
Qed.

(** The three ways a run can go. *)
Lemma process_content_cases P uploaded_file manual_text lvl fmts now w :
  (exists e, extract_text uploaded_file manual_text = Raise e
             /\ process_content P uploaded_file manual_text lvl fmts now w
                = (Raise e, w))
  \/ ((extract_text uploaded_file manual_text = Ok None
       \/ extract_text uploaded_file manual_text = Ok (Some []))
      /\ process_content P uploaded_file manual_text lvl fmts now w
         = (Ok InputError, w))
  \/ (exists txt, extract_text uploaded_file manual_text = Ok (Some txt)
                  /\ txt <> []
                  /\ process_content P uploaded_file manual_text lvl fmts now w
                     = (Ok (Displayed (run_results P txt lvl fmts)
                                      (run_stats P txt lvl fmts)),
                        run_world P txt lvl fmts now w)).
Proof.
  destruct (extract_text uploaded_file manual_text) as [[[| c rest] |] | e] eqn:Hex.
  - right; left. split; [by right |]. apply process_content_stop. by right.
  - right; right. exists (c :: rest). split; [reflexivity |].
    split; [discriminate |]. by apply process_content_run.
  - right; left. split; [by left |]. apply process_content_stop. by left.
  - left. exists e. split; [reflexivity |]. by apply process_content_raise.
Qed.

(** ** Whitespace *)

Lemma lstrip_nil (s : text) : lstrip s = [] <-> blank s = true.
Proof.
  unfold blank. induction s as [| c s IH]; simpl; [done |].
  destruct (isspace c); simpl; [exact IH |].
  split; discriminate.
Qed.

Lemma blank_lstrip (s : text) : blank (lstrip s) = blank s.
Proof.
  unfold blank. induction s as [| c s IH]; simpl; [reflexivity |].
  destruct (isspace c) eqn:Hc; simpl; [exact IH |].
  by rewrite Hc.
Qed.

Lemma blank_reverse (s : text) : blank (reverse s) = blank s.
Proof.
  unfold blank. induction s as [| c s IH]; simpl; [reflexivity |].
  rewrite reverse_cons, forallb_app, IH. simpl.
  rewrite andb_true_r. apply andb_comm.
Qed.

Lemma reverse_nil_inv {A : Type} (l : list A) : reverse l = [] -> l = [].
Proof.
  intros H. apply (f_equal length) in H. rewrite length_reverse in H.
  by destruct l.
Qed.

Lemma strip_nil (s : text) : strip s = [] <-> blank s = true.
Proof.
  unfold strip, rstrip. split.
  - intros H. apply reverse_nil_inv in H. apply lstrip_nil in H.
    by rewrite blank_reverse, blank_lstrip in H.
  - intros H. rewrite <- blank_lstrip, <- blank_reverse in H.
    apply lstrip_nil in H. by rewrite H.
Qed.

Lemma truthy_strip (s : text) : truthy (strip s) = negb (blank s).
Proof.
  destruct (blank s) eqn:Hb; simpl.
  - apply strip_nil in Hb. by rewrite Hb.
  - destruct (strip s) eqn:Hs; [| reflexivity].
    assert (blank s = true) by (by apply strip_nil). congruence.
Qed.

(** Pasted text reaches the pipeline only when it is not blank. *)
Lemma extract_text_pasted (manual_text : text) :
  extract_text None manual_text
  = Ok (Some (if blank manual_text then [] else manual_text)).
Proof.
  unfold extract_text. rewrite truthy_strip.
  by destruct (blank manual_text).
Qed.

(** The pasted text plays no part once a file is uploaded. *)
Lemma extract_text_uploaded (f : UploadedFile) (m1 m2 : text) :
  extract_text (Some f) m1 = extract_text (Some f) m2.
Proof. reflexivity. Qed.

(** The message of line 334 is shown exactly when [text_content] is false at
    line 333. *)
Lemma input_error_iff P uploaded_file manual_text lvl fmts now w w' :
  process_content P uploaded_file manual_text lvl fmts now w = (Ok InputError, w')
  <-> (extract_text uploaded_file manual_text = Ok None
       \/ extract_text uploaded_file manual_text = Ok (Some [])) /\ w' = w.
Proof.
  split.
  - intros Hrun.
    destruct (process_content_cases P uploaded_file manual_text lvl fmts now w)
      as [(e & _ & Hp) | [(Hex & Hp) | (txt & _ & _ & Hp)]];
      rewrite Hp in Hrun; inversion Hrun; subst; by split.
  - intros [Hex ->]. by apply process_content_stop.
Qed.

(** ** The history store *)

Lemma history_save_document (entry : document_entry) (w : world) :
  history (snd (save_document entry w)) = entry :: take 9 (history w).
Proof. reflexivity. Qed.

Lemma take_9_of_10 {A : Type} (l : list A) :
  length l = 10 ->
  exists oldest, l !! 9 = Some oldest /\ l = take 9 l ++ [oldest].
Proof.
  intros Hlen.
  destruct (lookup_lt_is_Some_2 l 9) as [oldest Hold]; [lia |].
  exists oldest. split; [exact Hold |].
  rewrite <- (take_drop 9 l) at 1. f_equal.
  rewrite (drop_S l oldest 9 Hold).
  f_equal. apply nil_length_inv. rewrite length_drop. lia.
Qed.

Lemma process_content_history P uploaded_file manual_text lvl fmts now w r w' :
  process_content P uploaded_file manual_text lvl fmts now w = (r, w') ->
  history w' = history w
  \/ exists entry, processed_documents w'
                   = Some (take 10 (entry :: history w)).
Proof.
  intros Hrun.
  destruct (process_content_cases P uploaded_file manual_text lvl fmts now w)
    as [(e & _ & Hp) | [(_ & Hp) | (txt & _ & _ & Hp)]];
    rewrite Hp in Hrun; inversion Hrun; subst.
  - by left.
  - by left.
  - right. by eexists.
Qed.

(** C3: the history never holds more than ten entries. Saving a document puts
    it at index 0; below ten entries nothing is dropped; with ten entries the
    one at index 9 is dropped and the other nine follow the new entry in
    their old order; and every run of [process_content] keeps the bound. *)
Theorem history_bounded_newest_first (entry : document_entry) (w : world) :
  let before := history w in
  let after := history (snd (save_document entry w)) in
  length (history fresh) = 0
  /\ length after <= 10
  /\ after !! 0 = Some entry
  /\ (forall i, i < 9 -> after !! S i = before !! i)
  /\ (length before < 10 -> after = entry :: before)
  /\ (length before = 10 ->
      exists oldest, before !! 9 = Some oldest
                     /\ before = take 9 before ++ [oldest]
                     /\ after = entry :: take 9 before)
  /\ (forall P uploaded_file manual_text lvl fmts now r w',
         process_content P uploaded_file manual_text lvl fmts now w = (r, w') ->
         length before <= 10 -> length (history w') <= 10).
Proof.
  intros before after. subst after. rewrite history_save_document.
  fold before. repeat split.
  - simpl. rewrite length_take. lia.
  - intros i Hi. simpl. by apply lookup_take_lt.
  - intros Hlt. f_equal. apply take_ge. lia.
  - intros Hlen. destruct (take_9_of_10 before Hlen) as (oldest & Hold & Heq).
    exists oldest. by repeat split.
  - intros P uploaded_file manual_text lvl fmts now r w' Hrun Hle.
    destruct (process_content_history _ _ _ _ _ _ _ _ _ Hrun) as [-> | [e He]].
    + exact Hle.
    + unfold history at 1. rewrite He. simpl. rewrite length_take. lia.
Qed.

Lemma history_bounded_newest_first_witness :
  length (history full_session) = 10
  /\ exists oldest,
       history full_session !! 9 = Some oldest
       /\ oldest = sample_entry 1
       /\ history (snd (save_document (sample_entry 11) full_session))
          = sample_entry 11 :: take 9 (history full_session).
Proof.
  split; [reflexivity |].
  destruct (history_bounded_newest_first (sample_entry 11) full_session)
    as (_ & _ & _ & _ & _ & Hfull & _).
  destruct (Hfull eq_refl) as (oldest & Hold & _ & Hafter).
  exists oldest. split; [exact Hold |]. split; [| exact Hafter].
  vm_compute in Hold. by inversion Hold.
Defined.

(** ** The input check *)

(** C6: a run that ends with the message of line 334 leaves the session as it
    was, history included; a run whose extracted text is not empty ends in
    [display_results] and puts exactly one entry, built from that run, in
    front of the history. *)
Theorem input_error_leaves_history
    P uploaded_file manual_text lvl fmts now (w : world) :
  (forall w',
      process_content P uploaded_file manual_text lvl fmts now w
      = (Ok InputError, w') ->
      w' = w /\ processed_documents w' = processed_documents w)
  /\ (forall txt,
         extract_text uploaded_file manual_text = Ok (Some txt) -> txt <> [] ->
         exists r st entry w',
           process_content P uploaded_file manual_text lvl fmts now w
           = (Ok (Displayed r st), w')
           /\ processed_documents w' = Some (take 10 (entry :: history w))
           /\ timestamp entry = now
           /\ original_length entry = length txt
           /\ entry_summary entry = default [] (summary r)
           /\ has_audio entry = bool_decide (is_Some (audio r))
           /\ has_visual entry = bool_decide (is_Some (visual r)))
  /\ (forall r st w',
         process_content P uploaded_file manual_text lvl fmts now w
         = (Ok (Displayed r st), w') ->
         exists entry,
           processed_documents w' = Some (take 10 (entry :: history w))).
Proof.
  split; [| split].
  - intros w' Hrun. apply input_error_iff in Hrun as [_ ->]. by split.
  - intros txt Hex Hne.
    exists (run_results P txt lvl fmts), (run_stats P txt lvl fmts),
           (run_entry P txt lvl fmts now), (run_world P txt lvl fmts now w).
    split; [by apply process_content_run |].
    by repeat split.
  - intros r st w' Hrun.
    destruct (process_content_cases P uploaded_file manual_text lvl fmts now w)
      as [(e & _ & Hp) | [(_ & Hp) | (txt & _ & _ & Hp)]];
      rewrite Hp in Hrun; inversion Hrun; subst.
    by eexists.
Qed.

Lemma input_error_leaves_history_witness :
  process_content configured None [] (lit "beginner") all_formats 0 full_session
  = (Ok InputError, full_session)
  /\ processed_documents full_session = processed_documents full_session
  /\ exists r st entry w',
       process_content configured None hello (lit "beginner") all_formats 7
         full_session
       = (Ok (Displayed r st), w')
       /\ processed_documents w' = Some (take 10 (entry :: history full_session))
       /\ original_length entry = 11.
Proof.
  destruct (input_error_leaves_history configured None [] (lit "beginner")
              all_formats 0 full_session) as (Hstop & _ & _).
  destruct (input_error_leaves_history configured None hello (lit "beginner")
              all_formats 7 full_session) as (_ & Hgo & _).
  split; [reflexivity |].
  split; [exact (proj2 (Hstop full_session eq_refl)) |].
  destruct (Hgo hello eq_refl ltac:(discriminate))
    as (r & st & entry & w' & Hrun & Hdocs & _ & Hlen & _).
  exists r, st, entry, w'. by repeat split.
Defined.

(** C10: with an uploaded file the pasted text has no effect on the run; a
    file whose type is neither PDF nor plain text, a PDF whose extraction
    returns [None] or the empty string, and a plain-text file that decodes to
    the empty string all end with the message of line 334, whatever was
    pasted. *)
Theorem uploaded_file_hides_pasted_text
    P (f : UploadedFile) (manual_text : text) lvl fmts now (w : world) :
  process_content P (Some f) manual_text lvl fmts now w
  = process_content P (Some f) [] lvl fmts now w
  /\ (type f <> lit "application/pdf" -> type f <> lit "text/plain" ->
      process_content P (Some f) manual_text lvl fmts now w = (Ok InputError, w))
  /\ (type f = lit "application/pdf" ->
      truthy_opt (extract_text_from_pdf f) = false ->
      process_content P (Some f) manual_text lvl fmts now w = (Ok InputError, w))
  /\ (type f = lit "text/plain" -> decoded f = Some [] ->
      process_content P (Some f) manual_text lvl fmts now w = (Ok InputError, w)).
Proof.
  split; [reflexivity |]. split; [| split].
  - intros Hpdf Htxt. apply process_content_stop. right.
    unfold extract_text.
    rewrite (bool_decide_eq_false_2 _ Hpdf), (bool_decide_eq_false_2 _ Htxt).
    reflexivity.
  - intros Hpdf Hnone. apply process_content_stop.
    unfold extract_text. rewrite (bool_decide_eq_true_2 _ Hpdf).
    destruct (extract_text_from_pdf f) as [[| c s] |]; simpl in Hnone;
      [by right | discriminate | by left].
  - intros Htxt Hdec. apply process_content_stop. right.
    unfold extract_text. rewrite Htxt, Hdec. reflexivity.
Qed.

Lemma uploaded_file_hides_pasted_text_witness :
  type png_file <> lit "application/pdf"
  /\ type png_file <> lit "text/plain"
  /\ truthy hello = true
  /\ process_content configured (Some png_file) hello (lit "beginner")
       all_formats 0 fresh
     = (Ok InputError, fresh)
  /\ process_content configured (Some (pdf_file [])) hello (lit "beginner")
       all_formats 0 fresh
     = (Ok InputError, fresh)
  /\ process_content configured (Some (txt_file [])) hello (lit "beginner")
       all_formats 0 fresh
     = (Ok InputError, fresh).
Proof.
  assert (H1 : type png_file <> lit "application/pdf") by discriminate.
  assert (H2 : type png_file <> lit "text/plain") by discriminate.
  split; [exact H1 |]. split; [exact H2 |]. split; [reflexivity |].
  split; [| split].
  - exact (proj1 (proj2 (uploaded_file_hides_pasted_text configured png_file
             hello (lit "beginner") all_formats 0 fresh)) H1 H2).
  - exact (proj1 (proj2 (proj2 (uploaded_file_hides_pasted_text configured
             (pdf_file []) hello (lit "beginner") all_formats 0 fresh)))
             eq_refl eq_refl).
  - exact (proj2 (proj2 (proj2 (uploaded_file_hides_pasted_text configured
             (txt_file []) hello (lit "beginner") all_formats 0 fresh)))
             eq_refl eq_refl).
Defined.

(** C1, on the code: a plain-text upload that holds one space, and a PDF whose
    only page has no text, are blank, yet both pass the check of line 333: the
    stages run and a history entry is saved. The same blank text, pasted, is
    stopped at line 330. *)
Theorem blank_upload_passes_input_check :
  blank (lit " ") = true
  /\ extract_text (Some (txt_file (lit " "))) [] = Ok (Some (lit " "))
  /\ process_content offline None (lit " ") (lit "beginner") all_formats 0 fresh
     = (Ok InputError, fresh)
  /\ (exists st w',
         process_content offline (Some (txt_file (lit " "))) []
           (lit "beginner") all_formats 0 fresh
         = (Ok (Displayed {| summary := None; audio := None;
                             visual := Some (visual_prompt (lit " ")) |} st),
            w')
         /\ length (history w') = 1)
  /\ (exists txt st w',
         extract_text (Some (pdf_file [[]])) [] = Ok (Some txt)
         /\ blank txt = true
         /\ process_content offline (Some (pdf_file [[]])) []
              (lit "beginner") all_formats 0 fresh
            = (Ok (Displayed {| summary := None; audio := None;
                                visual := Some (visual_prompt txt) |} st),
               w')
         /\ length (history w') = 1).
Proof.
  split; [reflexivity |]. split; [reflexivity |]. split; [reflexivity |].
  split.
  - eexists _, _. split; [vm_compute; reflexivity | reflexivity].
  - eexists _, _, _. split; [reflexivity |]. split; [reflexivity |].
    split; [vm_compute; reflexivity | reflexivity].
Qed.

(** ** What the services receive *)

Lemma requested_true (format : text) (fmts : list text) :
  format ∈ fmts -> requested format fmts = true.
Proof. intros H. unfold requested. by apply bool_decide_eq_true_2. Qed.

Lemma chat_prompts_app (rs1 rs2 : list request) :
  chat_prompts (rs1 ++ rs2) = chat_prompts rs1 ++ chat_prompts rs2.
Proof. apply omap_app. Qed.

Lemma speech_texts_app (rs1 rs2 : list request) :
  speech_texts (rs1 ++ rs2) = speech_texts rs1 ++ speech_texts rs2.
Proof. apply omap_app. Qed.

Lemma chat_prompts_run P txt lvl fmts :
  chat_prompts (run_requests P txt lvl fmts)
  = if calls_summarizer P fmts then [run_prompt txt lvl] else [].
Proof.
  unfold run_requests. rewrite chat_prompts_app.
  destruct (calls_summarizer P fmts), (requested (lit "Voice Note") fmts),
    (tts_client P); reflexivity.
Qed.

Lemma speech_texts_run P txt lvl fmts :
  speech_texts (run_requests P txt lvl fmts)
  = if requested (lit "Voice Note") fmts then
      match tts_client P with
      | Some _ => [take 1000 (voice_source P txt lvl fmts)]
      | None => []
      end
    else [].
Proof.
  unfold run_requests. rewrite speech_texts_app.
  destruct (calls_summarizer P fmts), (requested (lit "Voice Note") fmts),
    (tts_client P); reflexivity.
Qed.

(** The two templates hold their arguments whole, between fixed pieces. *)
Lemma gpt_prompt_embeds :
  exists head middle tail,
    forall lvl chunk, gpt_prompt lvl chunk = head ++ lvl ++ middle ++ chunk ++ tail.
Proof.
  exists (take 73 (gpt_prompt [] [])),
         (take 398 (drop 73 (gpt_prompt [] []))),
         (drop 471 (gpt_prompt [] [])).
  intros lvl chunk. reflexivity.
Qed.

Lemma visual_prompt_embeds :
  exists head tail, forall excerpt, visual_prompt excerpt = head ++ excerpt ++ tail.
Proof.
  exists (take 89 (visual_prompt [])), (drop 89 (visual_prompt [])).
  intros excerpt. reflexivity.
Qed.

(** C2: in a run that asks for a voice note, the source of the voice stage is
    the summary when one was stored and the first 1000 characters of the
    original otherwise; the speech client, when configured, is called once,
    with the first 1000 characters of that source, and its answer is what the
    results hold as audio. *)
Theorem voice_stage_source_and_cut
    P uploaded_file manual_text lvl fmts now (w : world) (txt : text) :
  extract_text uploaded_file manual_text = Ok (Some txt) ->
  txt <> [] ->
  lit "Voice Note" ∈ fmts ->
  exists r st w' new,
    process_content P uploaded_file manual_text lvl fmts now w
    = (Ok (Displayed r st), w')
    /\ requests w' = requests w ++ new
    /\ let source := default (take 1000 txt) (summary r) in
       speech_texts new
       = match tts_client P with
         | Some _ => [take 1000 source]
         | None => []
         end
       /\ length (take 1000 source) <= 1000
       /\ (length source <= 1000 -> take 1000 source = source)
       /\ (summary r = None -> take 1000 source = take 1000 txt)
       /\ audio r
          = match tts_client P with
            | Some client => kept (client (take 1000 source))
            | None => None
            end.
Proof.
  intros Hex Hne Hvoice.
  exists (run_results P txt lvl fmts), (run_stats P txt lvl fmts),
         (run_world P txt lvl fmts now w), (run_requests P txt lvl fmts).
  split; [by apply process_content_run |].
  split; [reflexivity |].
  cbv zeta. simpl summary. simpl audio.
  fold (voice_source P txt lvl fmts).
  rewrite speech_texts_run. unfold run_audio.
  rewrite (requested_true _ _ Hvoice).
  repeat split.
  - rewrite length_take. lia.
  - intros Hle. by apply take_ge.
  - intros Hnone. unfold voice_source. rewrite Hnone. simpl.
    rewrite take_take. f_equal.
Qed.

Lemma voice_stage_source_and_cut_witness :
  extract_text None hello = Ok (Some hello)
  /\ hello <> []
  /\ lit "Voice Note" ∈ all_formats
  /\ exists r st w' new,
       process_content configured None hello (lit "beginner") all_formats 0 fresh
       = (Ok (Displayed r st), w')
       /\ requests w' = requests fresh ++ new
       /\ speech_texts new = [take 1000 (default (take 1000 hello) (summary r))].
Proof.
  assert (H1 : extract_text None hello = Ok (Some hello)) by reflexivity.
  assert (H2 : hello <> []) by discriminate.
  assert (H3 : lit "Voice Note" ∈ all_formats)
    by (apply (bool_decide_unpack _); vm_compute; exact I).
  split; [exact H1 |]. split; [exact H2 |]. split; [exact H3 |].
  destruct (voice_stage_source_and_cut configured None hello (lit "beginner")
              all_formats 0 fresh hello H1 H2 H3)
    as (r & st & w' & new & Hrun & Hreq & Hsp & _).
  exists r, st, w', new. by repeat split.
Defined.

(** C7: in a run that asks for a summary, the chat model, when the API key is
    set, is called once, with a prompt that holds, between fixed pieces of
    instruction, the requested level and the first 4000 characters of the
    original text, and the stored summary is its answer to that prompt; the
    chunk is a prefix of the text, cut at 4000 characters whatever stands
    there, and the whole text when it has 4000 characters or fewer. Without
    a key no call is made. *)
Theorem summarizer_gets_first_4000
    P uploaded_file manual_text lvl fmts now (w : world) (txt : text) :
  extract_text uploaded_file manual_text = Ok (Some txt) ->
  txt <> [] ->
  lit "Summary" ∈ fmts ->
  exists r st w' new head middle tail,
    process_content P uploaded_file manual_text lvl fmts now w
    = (Ok (Displayed r st), w')
    /\ requests w' = requests w ++ new
    /\ (forall l c, gpt_prompt l c = head ++ l ++ middle ++ c ++ tail)
    /\ chat_prompts new
       = (if api_key P
          then [head ++ lvl ++ middle ++ take 4000 txt ++ tail] else [])
    /\ summary r
       = (if api_key P
          then kept (chat_completion P
                       (head ++ lvl ++ middle ++ take 4000 txt ++ tail))
          else None)
    /\ chat_prompts new
       = (if api_key P then [gpt_prompt lvl (take 4000 txt)] else [])
    /\ take 4000 txt ++ drop 4000 txt = txt
    /\ length (take 4000 txt) = length txt `min` 4000
    /\ (length txt <= 4000 -> take 4000 txt = txt)
    /\ (forall w0,
          simplify_content_with_gpt P txt lvl w0
          = (Ok (if api_key P
                 then chat_completion P (gpt_prompt lvl (take 4000 txt))
                 else None),
             log (if api_key P
                  then [ChatCompletion (gpt_prompt lvl (take 4000 txt))]
                  else []) w0)).
Proof.
  intros Hex Hne Hsum.
  destruct gpt_prompt_embeds as (head & middle & tail & Hembed).
  exists (run_results P txt lvl fmts), (run_stats P txt lvl fmts),
         (run_world P txt lvl fmts now w), (run_requests P txt lvl fmts),
         head, middle, tail.
  split; [by apply process_content_run |].
  split; [reflexivity |]. split; [exact Hembed |].
  rewrite chat_prompts_run. rewrite <- Hembed.
  unfold run_results, run_summary, calls_summarizer, run_prompt.
  cbn [summary]. rewrite (requested_true _ _ Hsum). simpl andb.
  repeat split.
  - apply take_drop.
  - rewrite length_take. lia.
  - intros Hle. by apply take_ge.
  - intros w0. apply simplify_content_with_gpt_run.
Qed.

Lemma summarizer_gets_first_4000_witness :
  extract_text None long_text = Ok (Some long_text)
  /\ long_text <> []
  /\ lit "Summary" ∈ all_formats
  /\ exists r st w' new,
       process_content configured None long_text (lit "advanced") all_formats 0
         fresh
       = (Ok (Displayed r st), w')
       /\ requests w' = requests fresh ++ new
       /\ chat_prompts new = [gpt_prompt (lit "advanced") (take 4000 long_text)]
       /\ length (take 4000 long_text) = 4000.
Proof.
  assert (H1 : extract_text None long_text = Ok (Some long_text))
    by (vm_compute; reflexivity).
  assert (H2 : long_text <> []) by discriminate.
  assert (H3 : lit "Summary" ∈ all_formats)
    by (apply (bool_decide_unpack _); vm_compute; exact I).
  split; [exact H1 |]. split; [exact H2 |]. split; [exact H3 |].
  destruct (summarizer_gets_first_4000 configured None long_text
              (lit "advanced") all_formats 0 fresh long_text H1 H2 H3)
    as (r & st & w' & new & head & middle & tail & Hrun & Hreq & _ & _ & _
        & Hchat & _ & Hlen & _).
  exists r, st, w', new.
  split; [exact Hrun |]. split; [exact Hreq |]. split; [exact Hchat |].
  rewrite Hlen. vm_compute. reflexivity.
Defined.

(** ** Fallbacks *)

(** C4: in a run on non-empty text with no API key and all three formats
    asked for, no summary is stored and no prompt is sent; the voice stage
    runs on the first 1000 characters of the original, and the visual prompt
    holds, between the two fixed pieces of its template, the first 300
    characters of the original. *)
Theorem no_summarizer_falls_back_to_original
    P uploaded_file manual_text lvl fmts now (w : world) (txt : text) :
  extract_text uploaded_file manual_text = Ok (Some txt) ->
  txt <> [] ->
  api_key P = false ->
  lit "Summary" ∈ fmts ->
  lit "Voice Note" ∈ fmts ->
  lit "Visual Explanation" ∈ fmts ->
  exists st w' head tail,
    (forall excerpt, visual_prompt excerpt = head ++ excerpt ++ tail)
    /\ process_content P uploaded_file manual_text lvl fmts now w
       = (Ok (Displayed
                {| summary := None;
                   audio := match tts_client P with
                            | Some client => kept (client (take 1000 txt))
                            | None => None
                            end;
                   visual := Some (head ++ take 300 txt ++ tail) |} st),
          w')
    /\ requests w'
       = requests w ++ match tts_client P with
                       | Some _ => [SynthesizeSpeech (take 1000 txt)]
                       | None => []
                       end
    /\ compression_ratio st = Int 0.
Proof.
  intros Hex Hne Hkey Hsum Hvoice Hvis.
  destruct visual_prompt_embeds as (head & tail & Hembed).
  rewrite (process_content_run _ _ _ _ _ _ _ _ Hex Hne).
  assert (Hs : run_summary P txt lvl fmts = None).
  { unfold run_summary, calls_summarizer. rewrite Hkey.
    by rewrite andb_false_r. }
  assert (Hsrc : take 1000 (voice_source P txt lvl fmts) = take 1000 txt).
  { unfold voice_source. rewrite Hs. simpl. rewrite take_take. f_equal. }
  exists (run_stats P txt lvl fmts), (run_world P txt lvl fmts now w),
         head, tail.
  split; [exact Hembed |]. split; [| split].
  - unfold run_results, run_audio, run_visual.
    rewrite Hs, Hsrc, (requested_true _ _ Hvoice), (requested_true _ _ Hvis).
    rewrite <- Hembed. reflexivity.
  - unfold run_world, run_requests, calls_summarizer. cbn [requests].
    rewrite Hkey, andb_false_r, Hsrc, (requested_true _ _ Hvoice).
    reflexivity.
  - unfold run_stats, run_ratio. cbn [compression_ratio]. by rewrite Hs.
Qed.

Lemma no_summarizer_falls_back_to_original_witness :
  extract_text None long_text = Ok (Some long_text)
  /\ long_text <> []
  /\ api_key no_summarizer = false
  /\ lit "Summary" ∈ all_formats
  /\ lit "Voice Note" ∈ all_formats
  /\ lit "Visual Explanation" ∈ all_formats
  /\ exists st w',
       process_content no_summarizer None long_text (lit "beginner")
         all_formats 0 fresh
       = (Ok (Displayed
                {| summary := None;
                   audio := Some demo_audio;
                   visual := Some (visual_prompt (take 300 long_text)) |} st),
          w')
       /\ requests w' = [SynthesizeSpeech (take 1000 long_text)].
Proof.
  assert (H1 : extract_text None long_text = Ok (Some long_text))
    by (vm_compute; reflexivity).
  assert (H2 : long_text <> []) by discriminate.
  assert (H3 : lit "Summary" ∈ all_formats)
    by (apply (bool_decide_unpack _); vm_compute; exact I).
  assert (H4 : lit "Voice Note" ∈ all_formats)
    by (apply (bool_decide_unpack _); vm_compute; exact I).
  assert (H5 : lit "Visual Explanation" ∈ all_formats)
    by (apply (bool_decide_unpack _); vm_compute; exact I).
  split; [exact H1 |]. split; [exact H2 |]. split; [reflexivity |].
  split; [exact H3 |]. split; [exact H4 |]. split; [exact H5 |].
  destruct (no_summarizer_falls_back_to_original no_summarizer None long_text
              (lit "beginner") all_formats 0 fresh long_text H1 H2 eq_refl
              H3 H4 H5)
    as (st & w' & head & tail & Hembed & Hrun & Hreq & _).
  exists st, w'. rewrite Hembed. split; [exact Hrun | exact Hreq].
Defined.

(** C9: when the chat model answers with the empty string, no summary is
    stored: the voice and visual stages take their excerpts from the
    original, the compression ratio is 0 and the history entry carries the
    empty summary. In every run, a summary that is stored is not empty. *)
Theorem empty_summary_is_absent
    P uploaded_file manual_text lvl fmts now (w : world) :
  (forall txt,
      extract_text uploaded_file manual_text = Ok (Some txt) ->
      txt <> [] ->
      chat_completion P (gpt_prompt lvl (take 4000 txt)) = Some [] ->
      exists st w',
        process_content P uploaded_file manual_text lvl fmts now w
        = (Ok (Displayed
                 {| summary := None;
                    audio := if requested (lit "Voice Note") fmts then
                               match tts_client P with
                               | Some client => kept (client (take 1000 txt))
                               | None => None
                               end
                             else None;
                    visual := if requested (lit "Visual Explanation") fmts
                              then Some (visual_prompt (take 300 txt))
                              else None |} st),
           w')
        /\ speech_texts (drop (length (requests w)) (requests w'))
           = (if requested (lit "Voice Note") fmts then
                match tts_client P with
                | Some _ => [take 1000 txt]
                | None => []
                end
              else [])
        /\ compression_ratio st = Int 0
        /\ shown_summary_length st = None
        /\ entry_summary <$> history w' !! 0 = Some [])
  /\ (forall r st w' s,
         process_content P uploaded_file manual_text lvl fmts now w
         = (Ok (Displayed r st), w') ->
         summary r = Some s -> s <> []).
Proof.
  split.
  - intros txt Hex Hne Hempty.
    rewrite (process_content_run _ _ _ _ _ _ _ _ Hex Hne).
    assert (Hs : run_summary P txt lvl fmts = None).
    { unfold run_summary, run_prompt. rewrite Hempty, kept_empty.
      by destruct (calls_summarizer P fmts). }
    assert (Hsrc : take 1000 (voice_source P txt lvl fmts) = take 1000 txt).
    { unfold voice_source. rewrite Hs. simpl. rewrite take_take. f_equal. }
    eexists _, _. split; [| split; [| split; [| split]]].
    + unfold run_results, run_audio, run_visual. rewrite Hs, Hsrc. reflexivity.
    + unfold run_world. simpl. rewrite drop_app_length.
      by rewrite speech_texts_run, Hsrc.
    + unfold run_stats, run_ratio. simpl. by rewrite Hs.
    + unfold run_stats. simpl. by rewrite Hs.
    + unfold run_world, history, run_entry. simpl. by rewrite Hs.
  - intros r st w' s Hrun Hsum.
    destruct (process_content_cases P uploaded_file manual_text lvl fmts now w)
      as [(e & _ & Hp) | [(_ & Hp) | (txt & _ & _ & Hp)]];
      rewrite Hp in Hrun; inversion Hrun; subst.
    simpl in Hsum. unfold run_summary in Hsum.
    destruct (calls_summarizer P fmts); [| discriminate].
    by apply kept_Some in Hsum as [_ Hs].
Qed.

Lemma empty_summary_is_absent_witness :
  extract_text None hello = Ok (Some hello)
  /\ hello <> []
  /\ chat_completion mute_model (gpt_prompt (lit "beginner") (take 4000 hello))
     = Some []
  /\ exists st w',
       process_content mute_model None hello (lit "beginner") all_formats 0 fresh
       = (Ok (Displayed
                {| summary := None;
                   audio := Some demo_audio;
                   visual := Some (visual_prompt hello) |} st),
          w')
       /\ compression_ratio st = Int 0.
Proof.
  assert (H1 : extract_text None hello = Ok (Some hello)) by reflexivity.
  assert (H2 : hello <> []) by discriminate.
  split; [exact H1 |]. split; [exact H2 |]. split; [reflexivity |].
  destruct (proj1 (empty_summary_is_absent mute_model None hello
                     (lit "beginner") all_formats 0 fresh) hello H1 H2 eq_refl)
    as (st & w' & Hrun & _ & Hratio & _).
  exists st, w'. split; [exact Hrun | exact Hratio].
Defined.

(** ** Statistics *)

Section Binary64.
Local Open Scope Z_scope.

Lemma digits2_pos_bounds (p : positive) :
  2 ^ (Z.pos (digits2_pos p) - 1) <= Z.pos p < 2 ^ Z.pos (digits2_pos p).
Proof.
  induction p as [p IH | p IH |]; cbn [digits2_pos].
  - rewrite Pos2Z.inj_succ.
    replace (Z.succ (Z.pos (digits2_pos p)) - 1)
      with (Z.succ (Z.pos (digits2_pos p) - 1)) by lia.
    rewrite !Z.pow_succ_r by lia. lia.
  - rewrite Pos2Z.inj_succ.
    replace (Z.succ (Z.pos (digits2_pos p)) - 1)
      with (Z.succ (Z.pos (digits2_pos p) - 1)) by lia.
    rewrite !Z.pow_succ_r by lia. lia.
  - simpl. lia.
Qed.

Lemma Zdigits2_bounds (m : Z) :
  0 < m -> 2 ^ (Zdigits2 m - 1) <= m < 2 ^ Zdigits2 m.
Proof.
  destruct m as [| p | p]; try lia. intros _. apply digits2_pos_bounds.
Qed.

Lemma Zdigits2_pos (m : Z) : 0 < m -> 0 < Zdigits2 m.
Proof. destruct m; simpl; lia. Qed.

Lemma Zdigits2_ge (m k : Z) : 0 <= k -> 2 ^ k <= m -> k < Zdigits2 m.
Proof.
  intros Hk Hm.
  assert (Hpos : 0 < m) by (pose proof (Z.pow_pos_nonneg 2 k); lia).
  pose proof (Zdigits2_bounds m Hpos) as [_ Hup].
  pose proof (Zdigits2_pos m Hpos).
  apply (Z.pow_lt_mono_r_iff 2); lia.
Qed.

Lemma Zdigits2_le (m k : Z) : 0 < m -> 0 <= k -> m < 2 ^ k -> Zdigits2 m <= k.
Proof.
  intros Hm Hk Hlt.
  pose proof (Zdigits2_bounds m Hm) as [Hlo _].
  pose proof (Zdigits2_pos m Hm).
  assert (Zdigits2 m - 1 < k); [| lia].
  apply (Z.pow_lt_mono_r_iff 2); lia.
Qed.

Lemma shr_1_m (mrs : shr_record) :
  0 <= shr_m mrs -> shr_m (shr_1 mrs) = shr_m mrs / 2.
Proof.
  destruct mrs as [m r s]. simpl.
  destruct m as [| [p | p |] | p]; cbn [shr_m]; intros H;
    [reflexivity | | | reflexivity | lia].
  - apply Z.div_unique with (r := 1); lia.
  - apply Z.div_unique with (r := 0); lia.
Qed.

Lemma iter_shr_1_m (p : positive) :
  forall mrs, 0 <= shr_m mrs ->
              shr_m (SpecFloat.iter_pos shr_1 p mrs) = shr_m mrs / 2 ^ Z.pos p.
Proof.
  induction p as [p IH | p IH |]; intros mrs Hm; simpl SpecFloat.iter_pos.
  - assert (H1 : 0 <= shr_m (shr_1 mrs))
      by (rewrite shr_1_m by lia; apply Z.div_pos; lia).
    assert (H2 : 0 <= shr_m (SpecFloat.iter_pos shr_1 p (shr_1 mrs)))
      by (rewrite IH by lia; apply Z.div_pos; [lia | apply Z.pow_pos_nonneg; lia]).
    rewrite IH, IH, shr_1_m by lia.
    assert (Hp : 0 < 2 ^ Z.pos p) by (apply Z.pow_pos_nonneg; lia).
    rewrite !Z.div_div by lia.
    f_equal. replace (Z.pos p~1) with (Z.pos p + Z.pos p + 1) by lia.
    rewrite !Z.pow_add_r by lia. lia.
  - assert (H2 : 0 <= shr_m (SpecFloat.iter_pos shr_1 p mrs))
      by (rewrite IH by lia; apply Z.div_pos; [lia | apply Z.pow_pos_nonneg; lia]).
    rewrite IH, IH by lia.
    assert (Hp : 0 < 2 ^ Z.pos p) by (apply Z.pow_pos_nonneg; lia).
    rewrite !Z.div_div by lia.
    f_equal. replace (Z.pos p~0) with (Z.pos p + Z.pos p) by lia.
    rewrite !Z.pow_add_r by lia. lia.
  - rewrite shr_1_m by lia. reflexivity.
Qed.

Lemma shr_m_of_loc (m : Z) (l : location) : shr_m (shr_record_of_loc m l) = m.
Proof. destruct l as [| []]; reflexivity. Qed.

Lemma shr_fexp_normal (m e : Z) (l : location) :
  0 < m -> 53 <= Zdigits2 m -> -1074 <= Zdigits2 m + e - 53 ->
  shr_m (fst (shr_fexp 53 1024 m e l)) = m / 2 ^ (Zdigits2 m - 53)
  /\ snd (shr_fexp 53 1024 m e l) = e + (Zdigits2 m - 53).
Proof.
  intros Hm Hd Hnorm. unfold shr_fexp, fexp, emin.
  replace (Z.max (Zdigits2 m + e - 53) (3 - 1024 - 53) - e)
    with (Zdigits2 m - 53) by lia.
  unfold shr.
  destruct (Zdigits2 m - 53) as [| p | p] eqn:Hn; try lia; simpl fst; simpl snd.
  - rewrite shr_m_of_loc. rewrite Z.div_1_r. lia.
  - rewrite iter_shr_1_m by (rewrite shr_m_of_loc; lia).
    rewrite shr_m_of_loc. lia.
Qed.

Lemma round_nearest_even_bounds (m : Z) (l : location) :
  m <= round_nearest_even m l <= m + 1.
Proof.
  unfold round_nearest_even. destruct l as [| []]; try lia.
  destruct (Z.even m); lia.
Qed.

Lemma binary_round_aux_normal (mx ex : Z) (lx : location) :
  0 < mx -> 53 <= Zdigits2 mx ->
  -1074 <= Zdigits2 mx + ex - 53 -> Zdigits2 mx + ex <= 1023 ->
  exists m e,
    binary_round_aux 53 1024 false mx ex lx = S754_finite false m e
    /\ 2 ^ 52 <= Z.pos m < 2 ^ 53
    /\ Zdigits2 mx + ex - 53 <= e <= Zdigits2 mx + ex - 52.
Proof.
  intros Hm Hd Hnorm Hover.
  unfold binary_round_aux.
  destruct (shr_fexp_normal mx ex lx Hm Hd Hnorm) as [H1m H1e].
  destruct (shr_fexp 53 1024 mx ex lx) as [mrs' e'] eqn:Hs1.
  simpl in H1m, H1e.
  pose proof (Zdigits2_bounds mx Hm) as [Hlo Hhi].
  set (d := Zdigits2 mx) in *.
  assert (Hpow : 0 < 2 ^ (d - 53)) by (apply Z.pow_pos_nonneg; lia).
  assert (Hsplit1 : 2 ^ (d - 1) = 2 ^ (d - 53) * 2 ^ 52)
    by (rewrite <- Z.pow_add_r by lia; f_equal; lia).
  assert (Hsplit2 : 2 ^ d = 2 ^ (d - 53) * 2 ^ 53)
    by (rewrite <- Z.pow_add_r by lia; f_equal; lia).
  assert (Hm1 : 2 ^ 52 <= shr_m mrs' < 2 ^ 53).
  { rewrite H1m. split.
    - apply Z.div_le_lower_bound; lia.
    - apply Z.div_lt_upper_bound; lia. }
  pose proof (round_nearest_even_bounds (shr_m mrs') (loc_of_shr_record mrs')) as Hr.
  set (m2 := round_nearest_even (shr_m mrs') (loc_of_shr_record mrs')) in *.
  assert (Hm2 : 0 < m2) by lia.
  assert (Hd2lo : 53 <= Zdigits2 m2).
  { assert (52 < Zdigits2 m2); [| lia]. apply Zdigits2_ge; lia. }
  assert (Hd2hi : Zdigits2 m2 <= 54).
  { apply Zdigits2_le; lia. }
  destruct (shr_fexp_normal m2 e' loc_Exact Hm2 Hd2lo ltac:(lia)) as [H2m H2e].
  destruct (shr_fexp 53 1024 m2 e' loc_Exact) as [mrs'' e''] eqn:Hs2.
  simpl in H2m, H2e.
  assert (Hm3 : 2 ^ 52 <= shr_m mrs'' < 2 ^ 53).
  { rewrite H2m.
    assert (Hcase : Zdigits2 m2 = 53 \/ Zdigits2 m2 = 54) by lia.
    destruct Hcase as [Hc | Hc].
    - pose proof (Zdigits2_bounds m2 Hm2) as [_ Hb]. rewrite Hc in Hb.
      rewrite Hc. change (2 ^ (53 - 53)) with 1. rewrite Z.div_1_r. lia.
    - rewrite Hc. change (2 ^ (54 - 53)) with 2.
      pose proof (Zdigits2_bounds m2 Hm2) as [Hb _]. rewrite Hc in Hb.
      change (2 ^ (54 - 1)) with (2 ^ 53) in Hb.
      assert (m2 = 2 ^ 53) by lia. subst m2. rewrite H. 
      change (2 ^ 53 / 2) with (2 ^ 52). lia. }
  destruct (shr_m mrs'') as [| m | m] eqn:Hshr; try lia.
  assert (He : (e'' <=? 1024 - 53) = true) by (apply Z.leb_le; lia).
  rewrite He. exists m, e''. split; [reflexivity |]. split; [lia |]. lia.
Qed.

Lemma SFdiv_lengths (a b : positive) :
  Z.pos a < 2 ^ 63 -> Z.pos b < 2 ^ 63 ->
  exists m e,
    SFdiv 53 1024 (S754_finite false a 0) (S754_finite false b 0)
    = S754_finite false m e
    /\ 2 ^ 52 <= Z.pos m < 2 ^ 53 /\ -200 <= e <= 200.
Proof.
  intros Ha Hb. unfold SFdiv, SFdiv_core_binary, fexp, emin.
  pose proof (Zdigits2_bounds (Z.pos a) ltac:(lia)) as [Halo Hahi].
  pose proof (Zdigits2_bounds (Z.pos b) ltac:(lia)) as [Hblo Hbhi].
  pose proof (Zdigits2_pos (Z.pos a) ltac:(lia)) as Hd1.
  pose proof (Zdigits2_pos (Z.pos b) ltac:(lia)) as Hd2.
  pose proof (Zdigits2_le (Z.pos a) 63 ltac:(lia) ltac:(lia) Ha) as Hd1'.
  pose proof (Zdigits2_le (Z.pos b) 63 ltac:(lia) ltac:(lia) Hb) as Hd2'.
  set (d1 := Zdigits2 (Z.pos a)) in *. set (d2 := Zdigits2 (Z.pos b)) in *.
  set (e' := Z.min (Z.max (d1 + 0 - (d2 + 0) - 53) (3 - 1024 - 53)) (0 - 0)).
  set (s := 0 - 0 - e').
  assert (He' : e' = Z.min (d1 - d2 - 53) 0) by (unfold e'; lia).
  assert (Hs : 0 <= s <= 115) by (unfold s; lia).
  set (m' := match s with
             | 0 => Z.pos a
             | Z.pos _ => Z.shiftl (Z.pos a) s
             | Z.neg _ => 0
             end).
  assert (Hm' : m' = Z.pos a * 2 ^ s).
  { unfold m'. destruct s as [| p | p] eqn:Hsp; try lia.
    apply Z.shiftl_mul_pow2. lia. }
  clearbody m'.
  assert (Hps : 0 < 2 ^ s) by (apply Z.pow_pos_nonneg; lia).
  assert (Hps' : 2 ^ s <= 2 ^ 115) by (apply Z.pow_le_mono_r; lia).
  assert (Hexp : d2 + 52 <= d1 - 1 + s) by (unfold s; lia).
  assert (Hlow : Z.pos b * 2 ^ 52 <= m').
  { assert (H1 : 2 ^ (d2 + 52) <= 2 ^ (d1 - 1 + s))
      by (apply Z.pow_le_mono_r; lia).
    rewrite !Z.pow_add_r in H1 by lia. rewrite Hm'.
    assert (H2 : Z.pos b * 2 ^ 52 <= 2 ^ d2 * 2 ^ 52) by nia.
    assert (H3 : 2 ^ (d1 - 1) * 2 ^ s <= Z.pos a * 2 ^ s) by nia.
    lia. }
  assert (Hq : fst (Z.div_eucl m' (Z.pos b)) = m' / Z.pos b) by reflexivity.
  destruct (Z.div_eucl m' (Z.pos b)) as [q r]. simpl in Hq. subst q.
  set (q := m' / Z.pos b).
  assert (Hq1 : 2 ^ 52 <= q) by (apply Z.div_le_lower_bound; lia).
  assert (Hq2 : q <= m').
  { apply Z.div_le_upper_bound; [lia |]. nia. }
  assert (Hq3 : q < 2 ^ 178).
  { assert (m' < 2 ^ 63 * 2 ^ 115) by (rewrite Hm'; nia).
    change (2 ^ 178) with (2 ^ 63 * 2 ^ 115). lia. }
  assert (Hdq1 : 52 < Zdigits2 q) by (apply Zdigits2_ge; lia).
  assert (Hdq2 : Zdigits2 q <= 178) by (apply Zdigits2_le; lia).
  destruct (binary_round_aux_normal q e' (new_location (Z.pos b) r)
              ltac:(lia) ltac:(lia) ltac:(lia) ltac:(lia))
    as (m & e & Heq & Hm & He).
  exists m, e. simpl xorb. split; [exact Heq |]. split; [exact Hm | lia].
Qed.

Lemma SFmul_100 (m : positive) (e : Z) :
  2 ^ 52 <= Z.pos m < 2 ^ 53 -> -200 <= e <= 200 ->
  exists m' e',
    SFmul 53 1024 (S754_finite false m e) (S754_finite false 100 0)
    = S754_finite false m' e'.
Proof.
  intros Hm He. unfold SFmul. simpl xorb.
  assert (Hd1 : 52 < Zdigits2 (Z.pos (m * 100)))
    by (apply Zdigits2_ge; lia).
  assert (Hd2 : Zdigits2 (Z.pos (m * 100)) <= 60)
    by (apply Zdigits2_le; lia).
  destruct (binary_round_aux_normal (Z.pos (m * 100)) (e + 0) loc_Exact
              ltac:(lia) ltac:(lia) ltac:(lia) ltac:(lia))
    as (m' & e' & Heq & _).
  exists m', e'. exact Heq.
Qed.

(** For two lengths that a Python string can have, neither zero, the value
    of [a / b * 100] is a positive binary64 number: no underflow to zero,
    no infinity. *)
Lemma ratio_finite (a b : nat) :
  (0 < a)%nat -> (0 < b)%nat -> Z.of_nat a < 2 ^ 63 -> Z.of_nat b < 2 ^ 63 ->
  exists m e,
    float_mul (float_div (float_of_nat a) (float_of_nat b)) (float_of_nat 100)
    = S754_finite false m e.
Proof.
  intros Ha Hb Ha' Hb'.
  destruct a as [| a]; [lia |]. destruct b as [| b]; [lia |].
  unfold float_mul, float_div. cbn [float_of_nat].
  destruct (SFdiv_lengths (Pos.of_succ_nat a) (Pos.of_succ_nat b)
              ltac:(lia) ltac:(lia))
    as (m & e & Hdiv & Hm & He).
  rewrite Hdiv. change (Pos.of_succ_nat 99) with 100%positive.
  exact (SFmul_100 m e Hm He).
Qed.
End Binary64.

(** Line 435 divides by the length of the original: on the empty text, with
    a summary stored, [display_results] raises and saves nothing. *)
Lemma display_results_empty_original (s : text) (now : Z) (w : world) :
  display_results {| summary := Some s; audio := None; visual := None |} [] now w
  = (Raise ZeroDivisionError, w).
Proof. reflexivity. Qed.

(** The only exception of the extraction is the one of [decode]. *)
Lemma extract_text_raises uploaded_file manual_text e :
  extract_text uploaded_file manual_text = Raise e -> e = UnicodeDecodeError.
Proof.
  unfold extract_text. destruct uploaded_file as [f |].
  - destruct (bool_decide _); [discriminate |].
    destruct (bool_decide _); [| discriminate].
    destruct (decoded f); [discriminate |].
    intros H. by inversion H.
  - destruct (truthy _); discriminate.
Qed.

(** C5, as stated, fails: with a summary of 7 characters for an original of
    25, line 435 gives the binary64 number 28.000000000000004, which is not
    the exact 7 / 25 * 100 = 28. *)
Lemma compression_ratio_is_not_exact :
  exists r st w' q,
    process_content seven_model None text25 (lit "beginner") [lit "Summary"] 0
      fresh
    = (Ok (Displayed r st), w')
    /\ length <$> summary r = Some 7
    /\ shown_original_length st = 25
    /\ compression_ratio st = Float (S754_finite false 7881299347898369 (-48))
    /\ number_value (compression_ratio st) = Some q
    /\ ~ (q == inject_Z 7 / inject_Z 25 * 100)%Q.
Proof.
  eexists _, _, _, _. split; [vm_compute; reflexivity |].
  split; [reflexivity |]. split; [reflexivity |]. split; [reflexivity |].
  split; [reflexivity |]. intros H. vm_compute in H. discriminate.
Qed.

(** C5, amended: in every run that reaches the statistics, the original text
    is not empty, so that the division of line 435 does not raise. Without a
    summary the compression ratio is the integer 0; with a summary [s] it is
    the binary64 number [len(s) / len(original) * 100], the quotient and the
    product each rounded to the nearest. For lengths that Python strings can
    have, below 2^63, that number is finite and positive, so that the ratio
    equals 0 exactly when no summary is stored. *)
Theorem compression_ratio_binary64
    P uploaded_file manual_text lvl fmts now (w : world) :
  (forall w',
      process_content P uploaded_file manual_text lvl fmts now w
      <> (Raise ZeroDivisionError, w'))
  /\ (forall r st w',
         process_content P uploaded_file manual_text lvl fmts now w
         = (Ok (Displayed r st), w') ->
         exists txt,
           extract_text uploaded_file manual_text = Ok (Some txt)
           /\ shown_original_length st = length txt
           /\ 0 < length txt
           /\ (summary r = None -> compression_ratio st = Int 0)
           /\ (forall s, summary r = Some s ->
                  compression_ratio st
                  = Float (float_mul
                             (float_div (float_of_nat (length s))
                                        (float_of_nat (length txt)))
                             (float_of_nat 100)))
           /\ ((Z.of_nat (length txt) < 2 ^ 63)%Z ->
               (forall s, summary r = Some s ->
                          (Z.of_nat (length s) < 2 ^ 63)%Z) ->
               (is_zero (compression_ratio st) = true <-> summary r = None)
               /\ (forall s, summary r = Some s ->
                      exists m e,
                        compression_ratio st
                        = Float (S754_finite false m e)))).
Proof.
  split.
  - intros w' Hrun.
    destruct (process_content_cases P uploaded_file manual_text lvl fmts now w)
      as [(e & He & Hp) | [(_ & Hp) | (txt & _ & _ & Hp)]];
      rewrite Hp in Hrun; inversion Hrun; subst.
    by apply extract_text_raises in He.
  - intros r st w' Hrun.
    destruct (process_content_cases P uploaded_file manual_text lvl fmts now w)
      as [(e & _ & Hp) | [(_ & Hp) | (txt & Hex & Hne & Hp)]];
      rewrite Hp in Hrun; inversion Hrun; subst.
    assert (Hlen : 0 < length txt) by (destruct txt; [done | simpl; lia]).
    exists txt. split; [exact Hex |]. split; [reflexivity |].
    split; [exact Hlen |].
    unfold run_stats, run_ratio, run_results.
    cbn [compression_ratio summary].
    destruct (run_summary P txt lvl fmts) as [s |] eqn:Hs.
    + assert (Hs' : s <> []).
      { unfold run_summary in Hs.
        destruct (calls_summarizer P fmts); [| discriminate].
        by apply kept_Some in Hs as [_ Hs]. }
      assert (Hpos : 0 < length s) by (destruct s; [done | simpl; lia]).
      split; [discriminate |]. split.
      * intros s0 Hs0. by inversion Hs0.
      * intros Htxt Hsum.
        destruct (ratio_finite (length s) (length txt) Hpos Hlen
                    (Hsum s eq_refl) Htxt) as (m & e & Hfin).
        rewrite Hfin. split.
        -- split; discriminate.
        -- intros s0 _. by exists m, e.
    + split; [reflexivity |]. split; [discriminate |].
      intros _ _. split; [by split | discriminate].
Qed.

Lemma compression_ratio_binary64_witness :
  exists r st w',
    process_content configured None hello (lit "beginner") all_formats 0 fresh
    = (Ok (Displayed r st), w')
    /\ summary r = Some demo_summary
    /\ (Z.of_nat (length hello) < 2 ^ 63)%Z
    /\ (Z.of_nat (length demo_summary) < 2 ^ 63)%Z
    /\ compression_ratio st = Float (S754_finite false 8956021986248145 (-46))
    /\ is_zero (compression_ratio st) = false.
Proof.
  exists (run_results configured hello (lit "beginner") all_formats),
         (run_stats configured hello (lit "beginner") all_formats),
         (run_world configured hello (lit "beginner") all_formats 0 fresh).
  assert (Hrun : process_content configured None hello (lit "beginner")
                   all_formats 0 fresh
                 = (Ok (Displayed
                          (run_results configured hello (lit "beginner")
                             all_formats)
                          (run_stats configured hello (lit "beginner")
                             all_formats)),
                    run_world configured hello (lit "beginner") all_formats 0
                      fresh))
    by (vm_compute; reflexivity).
  assert (H1 : (Z.of_nat (length hello) < 2 ^ 63)%Z) by (vm_compute; reflexivity).
  assert (H2 : (Z.of_nat (length demo_summary) < 2 ^ 63)%Z)
    by (vm_compute; reflexivity).
  split; [exact Hrun |]. split; [reflexivity |].
  split; [exact H1 |]. split; [exact H2 |].
  destruct (proj2 (compression_ratio_binary64 configured None hello
                     (lit "beginner") all_formats 0 fresh) _ _ _ Hrun)
    as (txt & Hex & _ & _ & _ & Hratio & Hzero).
  inversion Hex; subst txt.
  split.
  - rewrite (Hratio demo_summary eq_refl). vm_compute. reflexivity.
  - destruct (Hzero H1) as [Hiff _].
    + intros s Hs. inversion Hs; subst s. exact H2.
    + destruct (is_zero _) eqn:Hz; [| reflexivity].
      assert (Hnone : summary (run_results configured hello (lit "beginner")
                                 all_formats) = None) by (by apply Hiff).
      discriminate.
Defined.

(** ** PDF extraction *)

Lemma extract_pages_readable (pages : list text) (acc : text) :
  extract_pages (Some <$> pages) acc
  = Some (acc ++ concat ((fun page => page ++ newline) <$> pages)).
Proof.
  revert acc. induction pages as [| page rest IH]; intros acc; simpl.
  - by rewrite app_nil_r.
  - rewrite IH. by rewrite <- !app_assoc.
Qed.

Lemma spec_join_pages_newline (pages : list text) :
  pages <> [] ->
  concat ((fun page => page ++ newline) <$> pages)
  = spec_join_pages pages ++ newline.
Proof.
  induction pages as [| page rest IH]; [done |]. intros _.
  destruct rest as [| page' rest'].
  - simpl. by rewrite app_nil_r.
  - change (spec_join_pages (page :: page' :: rest'))
      with (page ++ newline ++ spec_join_pages (page' :: rest')).
    rewrite fmap_cons, concat_cons, IH by discriminate.
    by rewrite <- !app_assoc.
Qed.

(** C8, as stated, fails: a PDF with the single page ["a"] is extracted as
    ["a\n"], not as the join ["a"]. *)
Lemma pdf_extraction_is_not_a_join :
  extract_text_from_pdf (pdf_file [lit "a"]) = Some (lit "a" ++ newline)
  /\ extract_text_from_pdf (pdf_file [lit "a"])
     <> Some (spec_join_pages [lit "a"]).
Proof. split; [reflexivity | discriminate]. Qed.

(** C8, amended: for a readable PDF the extractor returns, in page order,
    each page's text followed by a newline, the last page included: the join
    of the pages with a newline, and one more newline at the end, when there
    is a page, and the empty string when there is none. A page without text
    contributes its newline alone. *)
Theorem pdf_extraction_newline_after_each_page
    (f : UploadedFile) (pages : list text) :
  pdf_pages f = Some (Some <$> pages) ->
  extract_text_from_pdf f
  = Some (concat ((fun page => page ++ newline) <$> pages))
  /\ (pages <> [] ->
      extract_text_from_pdf f = Some (spec_join_pages pages ++ newline))
  /\ (pages = [] -> extract_text_from_pdf f = Some [])
  /\ (forall before after,
         pages = before ++ [] :: after ->
         extract_text_from_pdf f
         = Some (concat ((fun page => page ++ newline) <$> before)
                 ++ newline
                 ++ concat ((fun page => page ++ newline) <$> after))).
Proof.
  intros Hpages.
  assert (Hout : extract_text_from_pdf f
                 = Some (concat ((fun page => page ++ newline) <$> pages))).
  { unfold extract_text_from_pdf. rewrite Hpages.
    by rewrite extract_pages_readable. }
  split; [exact Hout |]. split; [| split].
  - intros Hne. by rewrite Hout, spec_join_pages_newline.
  - intros ->. exact Hout.
  - intros before after ->. rewrite Hout.
    by rewrite fmap_app, concat_app.
Qed.

Lemma pdf_extraction_newline_after_each_page_witness :
  pdf_pages (pdf_file [lit "a"; []; lit "b"])
  = Some (Some <$> [lit "a"; []; lit "b"])
  /\ extract_text_from_pdf (pdf_file [lit "a"; []; lit "b"])
     = Some (lit "a" ++ newline ++ newline ++ lit "b" ++ newline).
Proof.
  split; [reflexivity |].
  exact (proj1 (pdf_extraction_newline_after_each_page
                  (pdf_file [lit "a"; []; lit "b"]) [lit "a"; []; lit "b"]
                  eq_refl)).
Defined.

(** ** Extraction: errors and edge cases *)

Lemma extract_pages_None (pages : list (option text)) (acc : text) :
  extract_pages pages acc = None <-> None ∈ pages.
Proof.
  revert acc. induction pages as [| [page |] rest IH]; intros acc; simpl.
  - split; [discriminate | by intros ?%elem_of_nil].
  - rewrite IH. split.
    + intros H. by right.
    + intros H. apply elem_of_cons in H as [H | H]; [discriminate | exact H].
  - split; [intros _; by left | reflexivity].
Qed.

Lemma extract_pages_length (pages : list text) :
  length (concat ((fun page => page ++ newline) <$> pages))
  = sum_list (length <$> pages) + length pages.
Proof.
  induction pages as [| page rest IH]; [reflexivity |].
  rewrite !fmap_cons, concat_cons, !length_app, IH.
  change (length newline) with 1. simpl. lia.
Qed.

(** An exception escapes [process_content] in one case only: a plain-text
    upload whose bytes [decode] rejects. The exception is
    [UnicodeDecodeError], nothing was sent and the session is as before. *)
Theorem decode_error_escapes
    P uploaded_file manual_text lvl fmts now (w w' : world) (e : exn) :
  process_content P uploaded_file manual_text lvl fmts now w = (Raise e, w')
  <-> (exists f, uploaded_file = Some f
                 /\ type f = lit "text/plain" /\ decoded f = None)
      /\ e = UnicodeDecodeError /\ w' = w.
Proof.
  split.
  - intros Hrun.
    destruct (process_content_cases P uploaded_file manual_text lvl fmts now w)
      as [(e0 & He & Hp) | [(_ & Hp) | (txt & _ & _ & Hp)]];
      rewrite Hp in Hrun; inversion Hrun; subst.
    split; [| split; [by apply extract_text_raises in He | reflexivity]].
    unfold extract_text in He. destruct uploaded_file as [f |].
    + exists f. split; [reflexivity |].
      destruct (bool_decide _); [discriminate |].
      case_bool_decide as Htxt; [| discriminate].
      split; [exact Htxt |]. by destruct (decoded f).
    + destruct (truthy _); discriminate.
  - intros [(f & -> & Htxt & Hdec) [-> ->]].
    apply process_content_raise. unfold extract_text.
    by rewrite Htxt, Hdec.
Qed.

Lemma decode_error_escapes_witness :
  process_content configured (Some undecodable_file) hello (lit "beginner")
    all_formats 0 full_session
  = (Raise UnicodeDecodeError, full_session).
Proof.
  apply (decode_error_escapes configured (Some undecodable_file) hello
           (lit "beginner") all_formats 0 full_session full_session
           UnicodeDecodeError).
  split; [| by split].
  exists undecodable_file. by repeat split.
Defined.

(** [extract_text_from_pdf] returns [None] exactly when the reader or the
    extraction of some page raises; the text of the pages read before is
    lost, and a run on such an upload ends with the message of line 334,
    with nothing sent and nothing saved. *)
Theorem pdf_failure_is_an_input_error
    P (f : UploadedFile) manual_text lvl fmts now (w : world) :
  (extract_text_from_pdf f = None
   <-> pdf_pages f = None
       \/ exists pages, pdf_pages f = Some pages /\ None ∈ pages)
  /\ (type f = lit "application/pdf" ->
      extract_text_from_pdf f = None ->
      process_content P (Some f) manual_text lvl fmts now w
      = (Ok InputError, w)).
Proof.
  split.
  - unfold extract_text_from_pdf.
    destruct (pdf_pages f) as [pages |].
    + rewrite extract_pages_None. split.
      * intros H. right. by exists pages.
      * intros [H | (pages' & H & Hin)]; [discriminate |].
        by inversion H; subst.
    + split; [by left | reflexivity].
  - intros Hpdf Hnone. apply process_content_stop. left.
    unfold extract_text. by rewrite Hpdf, Hnone.
Qed.

Lemma pdf_failure_is_an_input_error_witness :
  type broken_pdf = lit "application/pdf"
  /\ extract_text_from_pdf broken_pdf = None
  /\ process_content configured (Some broken_pdf) hello (lit "beginner")
       all_formats 0 fresh
     = (Ok InputError, fresh).
Proof.
  split; [reflexivity |]. split; [reflexivity |].
  exact (proj2 (pdf_failure_is_an_input_error configured broken_pdf hello
                  (lit "beginner") all_formats 0 fresh) eq_refl eq_refl).
Defined.

(** A readable PDF with at least one page always passes the check of line
    333, whatever its pages hold: its text has one character more per page
    than the pages together, and that length is the original length
    shown. *)
Theorem readable_pdf_passes_check
    P (f : UploadedFile) (pages : list text) manual_text lvl fmts now
    (w : world) :
  type f = lit "application/pdf" ->
  pdf_pages f = Some (Some <$> pages) ->
  pages <> [] ->
  exists txt r st w',
    extract_text_from_pdf f = Some txt
    /\ length txt = sum_list (length <$> pages) + length pages
    /\ process_content P (Some f) manual_text lvl fmts now w
       = (Ok (Displayed r st), w')
    /\ shown_original_length st = length txt
    /\ original_length <$> history w' !! 0 = Some (length txt).
Proof.
  intros Hpdf Hpages Hne.
  set (txt := concat ((fun page => page ++ newline) <$> pages)).
  assert (Hout : extract_text_from_pdf f = Some txt).
  { unfold extract_text_from_pdf. rewrite Hpages.
    by rewrite extract_pages_readable. }
  assert (Hlen : length txt = sum_list (length <$> pages) + length pages)
    by apply extract_pages_length.
  assert (Htxt : txt <> []).
  { intros Hnil. rewrite Hnil in Hlen. simpl in Hlen.
    destruct pages; [done | simpl in Hlen; lia]. }
  assert (Hex : extract_text (Some f) manual_text = Ok (Some txt)).
  { unfold extract_text. by rewrite Hpdf, Hout. }
  exists txt, (run_results P txt lvl fmts), (run_stats P txt lvl fmts),
         (run_world P txt lvl fmts now w).
  split; [exact Hout |]. split; [exact Hlen |].
  split; [by apply process_content_run |]. by split.
Qed.

Lemma readable_pdf_passes_check_witness :
  type (pdf_file [[]; []]) = lit "application/pdf"
  /\ pdf_pages (pdf_file [[]; []]) = Some (Some <$> [[]; []])
  /\ exists txt r st w',
       extract_text_from_pdf (pdf_file [[]; []]) = Some txt
       /\ length txt = 2
       /\ process_content offline (Some (pdf_file [[]; []])) [] (lit "beginner")
            all_formats 0 fresh
          = (Ok (Displayed r st), w').
Proof.
  split; [reflexivity |]. split; [reflexivity |].
  destruct (readable_pdf_passes_check offline (pdf_file [[]; []]) [[]; []] []
              (lit "beginner") all_formats 0 fresh eq_refl eq_refl
              ltac:(discriminate))
    as (txt & r & st & w' & Hout & Hlen & Hrun & _).
  exists txt, r, st, w'. by repeat split.
Defined.

(** Without an upload, the run ends with the message of line 334 exactly
    when the pasted text is empty or whitespace only; otherwise the pasted
    text goes through unstripped, so that the original length counts its
    leading and trailing whitespace. *)
Theorem pasted_text_check P (manual_text : text) lvl fmts now (w : world) :
  (blank manual_text = true ->
   process_content P None manual_text lvl fmts now w = (Ok InputError, w))
  /\ (blank manual_text = false ->
      exists r st w',
        process_content P None manual_text lvl fmts now w
        = (Ok (Displayed r st), w')
        /\ shown_original_length st = length manual_text
        /\ original_length <$> history w' !! 0 = Some (length manual_text)).
Proof.
  split; intros Hb.
  - apply process_content_stop. right.
    by rewrite extract_text_pasted, Hb.
  - assert (Hne : manual_text <> []) by (intros ->; discriminate).
    assert (Hex : extract_text None manual_text = Ok (Some manual_text))
      by (by rewrite extract_text_pasted, Hb).
    exists (run_results P manual_text lvl fmts),
           (run_stats P manual_text lvl fmts),
           (run_world P manual_text lvl fmts now w).
    split; [by apply process_content_run |]. by split.
Qed.

Lemma pasted_text_check_witness :
  blank (lit "  ") = true
  /\ process_content configured None (lit "  ") (lit "beginner") all_formats 0
       fresh
     = (Ok InputError, fresh)
  /\ blank (lit " hi ") = false
  /\ exists r st w',
       process_content configured None (lit " hi ") (lit "beginner")
         all_formats 0 fresh
       = (Ok (Displayed r st), w')
       /\ shown_original_length st = 4.
Proof.
  split; [reflexivity |].
  split; [exact (proj1 (pasted_text_check configured (lit "  ")
                          (lit "beginner") all_formats 0 fresh) eq_refl) |].
  split; [reflexivity |].
  destruct (proj2 (pasted_text_check configured (lit " hi ") (lit "beginner")
                     all_formats 0 fresh) eq_refl)
    as (r & st & w' & Hrun & Hlen & _).
  exists r, st, w'. by split.
Defined.

(** ** The stages: what they read and what they send *)

Lemma gpt_prompt_length (lvl chunk : text) :
  length (gpt_prompt lvl chunk) = 484 + length lvl + length chunk.
Proof.
  unfold gpt_prompt. rewrite !length_app.
  match goal with
  | |- length ?a + (_ + (length ?b + (_ + length ?c))) = _ =>
      change (length a) with 73; change (length b) with 398;
      change (length c) with 13
  end.
  lia.
Qed.

Lemma visual_prompt_length (excerpt : text) :
  length (visual_prompt excerpt) = 371 + length excerpt.
Proof.
  unfold visual_prompt. rewrite !length_app.
  match goal with
  | |- length ?a + (_ + length ?b) = _ =>
      change (length a) with 89; change (length b) with 282
  end.
  lia.
Qed.

Lemma visual_prompt_inj (e1 e2 : text) :
  visual_prompt e1 = visual_prompt e2 -> e1 = e2.
Proof.
  unfold visual_prompt. intros H.
  apply app_inv_head in H. by apply app_inv_tail in H.
Qed.

(** The summarizer never sees past the first 4000 characters: two texts that
    agree there give the same call and the same answer. With an API key,
    one prompt is sent, of 484 characters plus the level and the chunk. *)
Theorem summarizer_sees_only_first_4000 P (t1 t2 lvl : text) (w : world) :
  take 4000 t1 = take 4000 t2 ->
  simplify_content_with_gpt P t1 lvl w = simplify_content_with_gpt P t2 lvl w
  /\ (api_key P = true ->
      exists p,
        requests (snd (simplify_content_with_gpt P t1 lvl w))
        = requests w ++ [ChatCompletion p]
        /\ length p = 484 + length lvl + length t1 `min` 4000
        /\ length p <= 4484 + length lvl)
  /\ (api_key P = false ->
      simplify_content_with_gpt P t1 lvl w = (Ok None, w)).
Proof.
  intros Hagree. rewrite !simplify_content_with_gpt_run, Hagree.
  split; [reflexivity |]. split.
  - intros ->. eexists. split; [reflexivity |].
    rewrite gpt_prompt_length, <- Hagree, length_take. lia.
  - intros ->. by rewrite log_nil.
Qed.

Lemma summarizer_sees_only_first_4000_witness :
  take 4000 long_text = take 4000 (long_text ++ hello)
  /\ simplify_content_with_gpt configured long_text (lit "beginner") fresh
     = simplify_content_with_gpt configured (long_text ++ hello)
         (lit "beginner") fresh.
Proof.
  assert (H : take 4000 long_text = take 4000 (long_text ++ hello))
    by (vm_compute; reflexivity).
  split; [exact H |].
  exact (proj1 (summarizer_sees_only_first_4000 configured long_text
                  (long_text ++ hello) (lit "beginner") fresh H)).
Defined.

(** Two texts get the same visual prompt exactly when they agree on their
    first 300 characters; the prompt is never empty and has 371 characters
    plus the excerpt, 671 at most. *)
Theorem visual_prompt_of_first_300 (s1 s2 : text) :
  (create_visual_explanation s1 = create_visual_explanation s2
   <-> take 300 s1 = take 300 s2)
  /\ exists v,
       create_visual_explanation s1 = Some v
       /\ truthy v = true
       /\ length v = 371 + length s1 `min` 300
       /\ length v <= 671.
Proof.
  unfold create_visual_explanation. split.
  - split.
    + intros H. apply (inj Some) in H. by apply visual_prompt_inj.
    + by intros ->.
  - eexists. split; [reflexivity |]. split; [reflexivity |].
    rewrite visual_prompt_length, length_take. lia.
Qed.

Lemma visual_prompt_of_first_300_witness :
  take 300 long_text = take 300 (long_text ++ hello)
  /\ create_visual_explanation long_text
     = create_visual_explanation (long_text ++ hello).
Proof.
  assert (H : take 300 long_text = take 300 (long_text ++ hello))
    by (vm_compute; reflexivity).
  split; [exact H |].
  exact (proj2 (proj1 (visual_prompt_of_first_300 long_text
                         (long_text ++ hello))) H).
Defined.

(** A run sends at most two requests, the prompt before the speech text, and
    each only when its format was asked for and its service is configured;
    a run that does not reach [display_results] sends none. *)
Theorem requests_of_a_run
    P uploaded_file manual_text lvl fmts now (w w' : world) out :
  process_content P uploaded_file manual_text lvl fmts now w = (out, w') ->
  exists new,
    requests w' = requests w ++ new
    /\ new = (ChatCompletion <$> chat_prompts new)
             ++ (SynthesizeSpeech <$> speech_texts new)
    /\ length (chat_prompts new) <= 1
    /\ length (speech_texts new) <= 1
    /\ (chat_prompts new <> [] -> lit "Summary" ∈ fmts /\ api_key P = true)
    /\ (speech_texts new <> [] ->
        lit "Voice Note" ∈ fmts /\ is_Some (tts_client P))
    /\ ((forall r st, out <> Ok (Displayed r st)) -> new = []).
Proof.
  intros Hrun.
  destruct (process_content_cases P uploaded_file manual_text lvl fmts now w)
    as [(e & _ & Hp) | [(_ & Hp) | (txt & _ & _ & Hp)]];
    rewrite Hp in Hrun; inversion Hrun; subst.
  - exists []. rewrite app_nil_r. repeat split; simpl; (lia || done).
  - exists []. rewrite app_nil_r. repeat split; simpl; (lia || done).
  - exists (run_requests P txt lvl fmts). split; [reflexivity |].
    rewrite chat_prompts_run, speech_texts_run.
    unfold run_requests, calls_summarizer, requested.
    repeat split.
    + by destruct (bool_decide (lit "Summary" ∈ fmts)), (api_key P),
        (bool_decide (lit "Voice Note" ∈ fmts)), (tts_client P).
    + destruct (bool_decide (lit "Summary" ∈ fmts) && api_key P); simpl; lia.
    + destruct (bool_decide (lit "Voice Note" ∈ fmts)), (tts_client P);
        simpl; lia.
    + destruct (bool_decide (lit "Summary" ∈ fmts)) eqn:Hs; [| done].
      by apply bool_decide_eq_true in Hs.
    + destruct (bool_decide (lit "Summary" ∈ fmts)), (api_key P); done.
    + destruct (bool_decide (lit "Voice Note" ∈ fmts)) eqn:Hs; [| done].
      by apply bool_decide_eq_true in Hs.
    + destruct (bool_decide (lit "Voice Note" ∈ fmts)), (tts_client P); done.
    + intros Hnot. by destruct (Hnot _ _ eq_refl).
Qed.

Lemma requests_of_a_run_witness :
  exists new,
    requests (snd (process_content configured None hello (lit "beginner")
                     all_formats 0 fresh))
    = requests fresh ++ new
    /\ length (chat_prompts new) <= 1
    /\ length (speech_texts new) <= 1.
Proof.
  destruct (requests_of_a_run configured None hello (lit "beginner")
              all_formats 0 fresh _ _ (surjective_pairing _))
    as (new & Hreq & _ & Hchat & Hspeech & _).
  exists new. by repeat split.
Defined.

(** The results of a run hold an artifact only for a format that was asked
    for: a summary needs the format and the API key, an audio the format and
    the speech client, and the visual prompt is there exactly when its format
    was asked for. No stored artifact is empty. *)
Theorem artifacts_only_when_requested
    P uploaded_file manual_text lvl fmts now (w w' : world) r st :
  process_content P uploaded_file manual_text lvl fmts now w
  = (Ok (Displayed r st), w') ->
  (is_Some (summary r) -> lit "Summary" ∈ fmts /\ api_key P = true)
  /\ (is_Some (audio r) -> lit "Voice Note" ∈ fmts /\ is_Some (tts_client P))
  /\ (is_Some (visual r) <-> lit "Visual Explanation" ∈ fmts)
  /\ truthy_opt (summary r) = bool_decide (is_Some (summary r))
  /\ truthy_opt (audio r) = bool_decide (is_Some (audio r))
  /\ truthy_opt (visual r) = bool_decide (is_Some (visual r)).
Proof.
  intros Hrun.
  destruct (process_content_cases P uploaded_file manual_text lvl fmts now w)
    as [(e & _ & Hp) | [(_ & Hp) | (txt & _ & _ & Hp)]];
    rewrite Hp in Hrun; inversion Hrun; subst.
  unfold run_results, run_summary, run_audio, run_visual, calls_summarizer,
    requested, kept. cbn [summary audio visual].
  split; [| split; [| split; [| split; [| split]]]].
  - destruct (bool_decide (lit "Summary" ∈ fmts)) eqn:Hs; simpl.
    + apply bool_decide_eq_true in Hs.
      destruct (api_key P); [done |]. by intros [? ?].
    + by intros [? ?].
  - destruct (bool_decide (lit "Voice Note" ∈ fmts)) eqn:Hs.
    + apply bool_decide_eq_true in Hs.
      destruct (tts_client P); [by eauto |]. by intros [? ?].
    + by intros [? ?].
  - destruct (bool_decide (lit "Visual Explanation" ∈ fmts)) eqn:Hs.
    + apply bool_decide_eq_true in Hs. split; [done | by eauto].
    + apply bool_decide_eq_false in Hs. split; [by intros [? ?] | done].
  - destruct (bool_decide (lit "Summary" ∈ fmts) && api_key P); [| done].
    by destruct (chat_completion P _) as [[| c s] |].
  - destruct (bool_decide (lit "Voice Note" ∈ fmts)); [| done].
    destruct (tts_client P) as [client |]; [| done].
    by destruct (client _) as [[| b bs] |].
  - by destruct (bool_decide (lit "Visual Explanation" ∈ fmts)).
Qed.

Lemma artifacts_only_when_requested_witness :
  exists r st w',
    process_content configured None hello (lit "beginner")
      [lit "Visual Explanation"] 0 fresh
    = (Ok (Displayed r st), w')
    /\ is_Some (visual r)
    /\ truthy_opt (summary r) = bool_decide (is_Some (summary r)).
Proof.
  exists (run_results configured hello (lit "beginner")
            [lit "Visual Explanation"]),
         (run_stats configured hello (lit "beginner")
            [lit "Visual Explanation"]),
         (run_world configured hello (lit "beginner")
            [lit "Visual Explanation"] 0 fresh).
  assert (Hrun : process_content configured None hello (lit "beginner")
                   [lit "Visual Explanation"] 0 fresh
                 = (Ok (Displayed
                          (run_results configured hello (lit "beginner")
                             [lit "Visual Explanation"])
                          (run_stats configured hello (lit "beginner")
                             [lit "Visual Explanation"])),
                    run_world configured hello (lit "beginner")
                      [lit "Visual Explanation"] 0 fresh))
    by (vm_compute; reflexivity).
  split; [exact Hrun |].
  destruct (artifacts_only_when_requested _ _ _ _ _ _ _ _ _ _ Hrun)
    as (_ & _ & Hvis & Hsum & _).
  split; [| exact Hsum].
  apply Hvis. apply (bool_decide_unpack _). vm_compute. exact I.
Defined.

(** Stage isolation: the speech client has no part in the summary, the visual
    prompt or the statistics. Two processors that differ in their speech
    client only give the same summary, visual prompt and statistics, and send
    the same prompts. *)
Theorem speech_client_touches_audio_only
    P1 P2 uploaded_file manual_text lvl fmts now (w : world) (txt : text) :
  api_key P1 = api_key P2 ->
  (forall p, chat_completion P1 p = chat_completion P2 p) ->
  extract_text uploaded_file manual_text = Ok (Some txt) ->
  txt <> [] ->
  exists r1 r2 st w1 w2,
    process_content P1 uploaded_file manual_text lvl fmts now w
    = (Ok (Displayed r1 st), w1)
    /\ process_content P2 uploaded_file manual_text lvl fmts now w
       = (Ok (Displayed r2 st), w2)
    /\ summary r1 = summary r2
    /\ visual r1 = visual r2
    /\ chat_prompts (requests w1) = chat_prompts (requests w2).
Proof.
  intros Hkey Hchat Hex Hne.
  assert (Hs : run_summary P1 txt lvl fmts = run_summary P2 txt lvl fmts).
  { unfold run_summary, calls_summarizer. by rewrite Hkey, Hchat. }
  exists (run_results P1 txt lvl fmts), (run_results P2 txt lvl fmts),
         (run_stats P1 txt lvl fmts), (run_world P1 txt lvl fmts now w),
         (run_world P2 txt lvl fmts now w).
  split; [by apply process_content_run |].
  split.
  - rewrite (process_content_run P2 _ _ _ _ _ _ _ Hex Hne).
    do 3 f_equal. unfold run_stats, run_ratio. by rewrite Hs.
  - split; [exact Hs |]. split.
    + unfold run_results, run_visual. simpl. by rewrite Hs.
    + unfold run_world. cbn [requests].
      rewrite !chat_prompts_app, !chat_prompts_run.
      unfold calls_summarizer. by rewrite Hkey.
Qed.

Lemma speech_client_touches_audio_only_witness :
  api_key no_summarizer = api_key offline
  /\ exists r1 r2 st w1 w2,
       process_content no_summarizer None hello (lit "beginner") all_formats 0
         fresh
       = (Ok (Displayed r1 st), w1)
       /\ process_content offline None hello (lit "beginner") all_formats 0
            fresh
          = (Ok (Displayed r2 st), w2)
       /\ visual r1 = visual r2.
Proof.
  split; [reflexivity |].
  destruct (speech_client_touches_audio_only no_summarizer offline None hello
              (lit "beginner") all_formats 0 fresh hello eq_refl
              (fun _ => eq_refl) eq_refl ltac:(discriminate))
    as (r1 & r2 & st & w1 & w2 & H1 & H2 & _ & Hv & _).
  exists r1, r2, st, w1, w2. by repeat split.
Defined.



(** ** Statistics and history *)

(** Saving documents one after the other, on a history within its bound,
    leaves the newest ten of the saved and the old entries, the newest first:
    the bound is kept, and after ten saves or more none of the old entries
    is left, nor any but the last ten of the saved. *)
Theorem history_after_saves (entries : list document_entry) (w : world) :
  length (history w) <= 10 ->
  history (save_documents entries w) = take 10 (reverse entries ++ history w)
  /\ length (history (save_documents entries w)) <= 10
  /\ (10 <= length entries ->
      history (save_documents entries w) = take 10 (reverse entries)).
Proof.
  intros Hbound.
  assert (Hall : history (save_documents entries w)
                 = take 10 (reverse entries ++ history w)).
  { induction entries as [| e es IH] using rev_ind.
    - simpl. symmetry. by apply take_ge.
    - unfold save_documents. rewrite foldl_app. cbn [foldl].
      rewrite history_save_document. fold (save_documents es w).
      rewrite IH, reverse_app, take_take. reflexivity. }
  split; [exact Hall |]. split.
  - rewrite Hall, length_take. lia.
  - intros Hlen. rewrite Hall.
    rewrite take_app_le; [reflexivity |]. rewrite length_reverse. lia.
Qed.

Lemma history_after_saves_witness :
  length (history fresh) <= 10
  /\ 10 <= length (sample_entry <$> seq 1 11)
  /\ history (save_documents (sample_entry <$> seq 1 11) fresh)
     = sample_entry <$> reverse (seq 2 10).
Proof.
  assert (H0 : length (history fresh) <= 10) by (simpl; lia).
  assert (H1 : 10 <= length (sample_entry <$> seq 1 11)) by (simpl; lia).
  split; [exact H0 |]. split; [exact H1 |].
  destruct (history_after_saves (sample_entry <$> seq 1 11) fresh H0)
    as (_ & _ & Hfull).
  rewrite (Hfull H1). reflexivity.
Defined.

(** The history page has no document exactly when the history is empty or
    missing. Otherwise it lists the entries in their order, numbered from 1,
    each with its own figures; an entry shows its summary exactly when the
    summary is not empty, and no two summary areas share the index of their
    widget key. *)
Theorem show_history_items (w : world) :
  (show_history w = NoDocuments <-> history w = [])
  /\ (forall items,
         show_history w = Documents items ->
         length items = length (history w)
         /\ (forall i it,
                items !! i = Some it ->
                item_number it = i + 1
                /\ exists doc,
                     history w !! i = Some doc
                     /\ item_original_length it = original_length doc
                     /\ item_has_audio it = has_audio doc
                     /\ item_has_visual it = has_visual doc
                     /\ item_summary_area it
                        = (if truthy (entry_summary doc)
                           then Some (i, entry_summary doc) else None))
         /\ (forall i j it1 it2 k s1 s2,
                items !! i = Some it1 -> items !! j = Some it2 ->
                item_summary_area it1 = Some (k, s1) ->
                item_summary_area it2 = Some (k, s2) -> i = j)).
Proof.
  unfold show_history, history.
  destruct (processed_documents w) as [[| doc docs] |]; simpl.
  - split; [done | discriminate].
  - split; [split; discriminate |].
    intros items Hitems. inversion Hitems as [Heq]. clear Hitems.
    change (show_item 0 doc :: imap (show_item ∘ S) docs)
      with (imap show_item (doc :: docs)).
    set (l := doc :: docs).
    assert (Hlook : forall i it,
               imap show_item l !! i = Some it ->
               exists d, l !! i = Some d /\ it = show_item i d).
    { intros i it Hi. rewrite list_lookup_imap in Hi.
      destruct (l !! i) as [d |]; [| discriminate].
      exists d. split; [reflexivity |]. simpl in Hi. by inversion Hi. }
    split; [by rewrite length_imap |]. split.
    + intros i it Hi. destruct (Hlook i it Hi) as (d & Hd & ->).
      split; [reflexivity |]. exists d. by repeat split.
    + intros i j it1 it2 k s1 s2 Hi Hj H1 H2.
      destruct (Hlook i it1 Hi) as (d1 & _ & ->).
      destruct (Hlook j it2 Hj) as (d2 & _ & ->).
      unfold show_item in H1, H2. simpl in H1, H2.
      destruct (truthy (entry_summary d1)); [| discriminate].
      destruct (truthy (entry_summary d2)); [| discriminate].
      inversion H1. inversion H2. congruence.
  - split; [done | discriminate].
Qed.

Lemma show_history_items_witness :
  exists items,
    show_history full_session = Documents items
    /\ length items = 10
    /\ show_history fresh = NoDocuments.
Proof.
  eexists. split; [reflexivity |]. split; [| reflexivity].
  exact (proj1 (proj2 (show_history_items full_session) _ eq_refl)).
Defined.

(** After a run that reaches [display_results], the history page is not
    empty and its first expander is that run: number 1, the length of the
    original, the two marks, and the stored summary, shown when there is one
    and left out when there is none. *)
Theorem show_history_after_run
    P uploaded_file manual_text lvl fmts now (w w' : world) r st :
  process_content P uploaded_file manual_text lvl fmts now w
  = (Ok (Displayed r st), w') ->
  exists first rest,
    show_history w' = Documents (first :: rest)
    /\ item_number first = 1
    /\ item_timestamp first = now
    /\ item_original_length first = shown_original_length st
    /\ item_has_audio first = bool_decide (is_Some (audio r))
    /\ item_has_visual first = bool_decide (is_Some (visual r))
    /\ item_summary_area first = (fun s => (0, s)) <$> summary r
    /\ length rest = length (history w) `min` 9.
Proof.
  intros Hrun.
  destruct (process_content_cases P uploaded_file manual_text lvl fmts now w)
    as [(e & _ & Hp) | [(_ & Hp) | (txt & _ & _ & Hp)]];
    rewrite Hp in Hrun; inversion Hrun; subst.
  unfold show_history, run_world. cbn [processed_documents].
  change (take 10 (run_entry P txt lvl fmts now
                   :: default [] (processed_documents w)))
    with (run_entry P txt lvl fmts now :: take 9 (history w)).
  eexists _, _. split; [reflexivity |].
  repeat split.
  - unfold show_item, run_entry. cbn.
    destruct (run_summary P txt lvl fmts) as [s |] eqn:Hs; [| reflexivity].
    unfold run_summary in Hs.
    destruct (calls_summarizer P fmts); [| discriminate].
    apply kept_Some in Hs as [_ Hs]. by destruct s.
  - rewrite length_imap, length_take. lia.
Qed.

Lemma show_history_after_run_witness :
  exists r st w' first rest,
    process_content configured None hello (lit "beginner") all_formats 7
      full_session
    = (Ok (Displayed r st), w')
    /\ show_history w' = Documents (first :: rest)
    /\ item_summary_area first = Some (0, demo_summary)
    /\ length rest = 9.
Proof.
  exists (run_results configured hello (lit "beginner") all_formats),
         (run_stats configured hello (lit "beginner") all_formats),
         (run_world configured hello (lit "beginner") all_formats 7
            full_session).
  assert (Hrun : process_content configured None hello (lit "beginner")
                   all_formats 7 full_session
                 = (Ok (Displayed
                          (run_results configured hello (lit "beginner")
                             all_formats)
                          (run_stats configured hello (lit "beginner")
                             all_formats)),
                    run_world configured hello (lit "beginner") all_formats 7
                      full_session))
    by (vm_compute; reflexivity).
  destruct (show_history_after_run _ _ _ _ _ _ _ _ _ _ Hrun)
    as (first & rest & Hshow & _ & _ & _ & _ & _ & Harea & Hrest).
  exists first, rest. by repeat split.
Defined.

(** ** [setup_apis] *)

Section SetupFacts.
Variables Mongo S3 Tts : Type.
Variable MongoClient : gmap text text -> text -> option Mongo.
Variable boto3_client : gmap text text -> text -> text -> option S3.
Variable write_credentials : text -> option text.
Variable TextToSpeechClient : gmap text text -> option Tts.

Let setup := Setup.setup_apis Mongo S3 Tts MongoClient boto3_client
               write_credentials TextToSpeechClient.

(** With a secrets file, [setup_apis] sets the S3 client and the bucket name
    together or not at all: both are there exactly when the three AWS
    secrets are present and the client could be built, and the bucket is
    then the one of the secrets. *)
Theorem s3_client_with_bucket
    (secrets env : gmap text text) (prior_key : option text) :
  exists c,
    setup (Some secrets) env prior_key = Setup.Ready _ _ _ c
    /\ (is_Some (Setup.s3_client _ _ _ c)
        <-> is_Some (Setup.bucket_name _ _ _ c))
    /\ (is_Some (Setup.s3_client _ _ _ c)
        <-> exists access secret bucket,
              secrets !! lit "aws_access_key" = Some access
              /\ secrets !! lit "aws_secret_key" = Some secret
              /\ secrets !! lit "aws_bucket_name" = Some bucket
              /\ Setup.s3_client _ _ _ c = boto3_client env access secret
              /\ is_Some (boto3_client env access secret)
              /\ Setup.bucket_name _ _ _ c = Some bucket).
Proof.
  eexists. split; [reflexivity |].
  cbn [Setup.s3_client Setup.bucket_name].
  destruct (secrets !! lit "aws_access_key") as [access |];
    [destruct (secrets !! lit "aws_secret_key") as [secret |];
     [destruct (secrets !! lit "aws_bucket_name") as [bucket |];
      [destruct (boto3_client env access secret) as [client |] eqn:Hclient
      |] |] |];
    cbn [fst snd].
  - split; [split; intros _; by eexists |].
    split; [intros _ | intros _; by eexists].
    exists access, secret, bucket. rewrite Hclient.
    repeat split; by eexists.
  - split; [split; intros [? ?]; discriminate |].
    split; [intros [? ?]; discriminate |].
    intros (a & s & b & Ha & Hs & _ & _ & [x Hx] & _).
    inversion Ha; inversion Hs; subst. congruence.
  - split; [split; intros [? ?]; discriminate |].
    split; [intros [? ?]; discriminate |].
    intros (a & s & b & _ & _ & Hb & _). discriminate.
  - split; [split; intros [? ?]; discriminate |].
    split; [intros [? ?]; discriminate |].
    intros (a & s & b & _ & Hs & _). discriminate.
  - split; [split; intros [? ?]; discriminate |].
    split; [intros [? ?]; discriminate |].
    intros (a & s & b & Ha & _). discriminate.
Qed.

(** Without a secrets file [setup_apis] raises, whatever the environment
    holds. With one, secrets come before the environment: a secret
    [openai_api_key] becomes the key whatever [OPENAI_API_KEY] holds, so
    that an empty secret leaves the OpenAI mark off, and a secret
    [mongodb_uri] is the one the client is built from; without these secrets
    the key and the URI come from the environment when they are set and not
    empty. Once the credentials file is written, the environment names it,
    whether or not the speech client could be built. *)
Theorem secrets_before_environment
    (secrets env : gmap text text) (prior_key : option text) :
  setup None env prior_key = Setup.SecretsNotFound _ _ _
  /\ exists c,
       setup (Some secrets) env prior_key = Setup.Ready _ _ _ c
       /\ (forall k, secrets !! lit "openai_api_key" = Some k ->
                     Setup.openai_api_key _ _ _ c = Some k
                     /\ Setup.api_status _ _ _ c !! 0 = Some (truthy k))
       /\ (secrets !! lit "openai_api_key" = None ->
           Setup.openai_api_key _ _ _ c
           = if truthy_opt (env !! lit "OPENAI_API_KEY")
             then env !! lit "OPENAI_API_KEY" else prior_key)
       /\ (forall uri, secrets !! lit "mongodb_uri" = Some uri ->
                       Setup.mongo_client _ _ _ c = MongoClient env uri)
       /\ (secrets !! lit "mongodb_uri" = None ->
           truthy_opt (env !! lit "MONGODB_URI") = false ->
           Setup.mongo_client _ _ _ c = None)
       /\ (secrets !! lit "google_credentials" = None ->
           Setup.api_status _ _ _ c !! 1 = Some false
           /\ Setup.environ _ _ _ c = env)
       /\ (forall credentials_info name,
              secrets !! lit "google_credentials" = Some credentials_info ->
              write_credentials credentials_info = Some name ->
              Setup.environ _ _ _ c
              = <[lit "GOOGLE_APPLICATION_CREDENTIALS" := name]> env
              /\ Setup.tts_client _ _ _ c
                 = TextToSpeechClient (Setup.environ _ _ _ c)).
Proof.
  split; [reflexivity |].
  eexists. split; [reflexivity |].
  unfold Setup.api_status.
  cbn [Setup.openai_api_key Setup.mongo_client Setup.tts_client
       Setup.s3_client Setup.environ lookup list_lookup].
  split; [| split; [| split; [| split; [| split]]]].
  - intros k ->. by split.
  - by intros ->.
  - by intros uri ->.
  - intros -> Henv.
    destruct (env !! lit "MONGODB_URI") as [[| c0 uri] |]; done.
  - by intros ->.
  - intros credentials_info name -> ->. by split.
Qed.
End SetupFacts.

Lemma s3_client_with_bucket_witness :
  exists c,
    sample_setup (Some partial_aws_secrets) ∅ None = Setup.Ready _ _ _ c
    /\ ~ is_Some (Setup.s3_client _ _ _ c)
    /\ ~ is_Some (Setup.bucket_name _ _ _ c).
Proof.
  destruct (s3_client_with_bucket unit unit unit (fun _ _ => Some tt)
              (fun _ _ _ => Some tt)
              (fun _ => Some (lit "/tmp/credentials.json"))
              (fun _ => Some tt) partial_aws_secrets ∅ None)
    as (c & Hc & Hpair & Hall).
  exists c. split; [exact Hc |].
  assert (Hno : ~ is_Some (Setup.s3_client _ _ _ c)).
  { intros Hs. apply Hall in Hs as (a & s & b & _ & _ & Hb & _).
    vm_compute in Hb. discriminate. }
  split; [exact Hno |]. intros Hb. apply Hno. by apply Hpair.
Defined.

Lemma secrets_before_environment_witness :
  sample_setup None key_environment None = Setup.SecretsNotFound _ _ _
  /\ empty_key_secrets !! lit "openai_api_key" = Some []
  /\ exists c,
       sample_setup (Some empty_key_secrets) key_environment None
       = Setup.Ready _ _ _ c
       /\ Setup.openai_api_key _ _ _ c = Some []
       /\ Setup.api_status _ _ _ c !! 0 = Some false.
Proof.
  assert (H : empty_key_secrets !! lit "openai_api_key" = Some [])
    by (vm_compute; reflexivity).
  destruct (secrets_before_environment unit unit unit (fun _ _ => Some tt)
              (fun _ _ _ => Some tt)
              (fun _ => Some (lit "/tmp/credentials.json"))
              (fun _ => Some tt) empty_key_secrets key_environment None)
    as (Hnone & c & Hc & Hkey & _).
  split; [exact Hnone |]. split; [exact H |].
  exists c. split; [exact Hc |]. exact (Hkey [] H).
Defined.
